(** * Trivia backend (backend/flaskr/__init__.py): request handlers over a
      question store, with Python's exceptions, truthiness and slicing.

    The handlers are embedded as computations over the store that either
    return a JSON payload or raise; [full_dispatch] then maps what a view
    raised to the registered error handlers, as Flask does. *)

From Stdlib Require Import ZArith Ascii String.
From stdpp Require Import base option list gmap strings sorting.

Local Open Scope Z_scope.

(** ** Python values decoded from a JSON body *)

(** What [request.get_json()] yields. [JNull] is Python's [None]; numbers
    are the integers (a JSON float does not occur in the protocol). *)
#[local] Unset Elimination Schemes.
Inductive json : Type :=
| JNull
| JBool (b : bool)
| JNum (z : Z)
| JStr (s : string)
| JArr (items : list json)
| JObj (fields : list (string * json)).
#[local] Set Elimination Schemes.

(** Python exceptions the views can meet. [HTTPException code] is what
    [abort(code)] raises; it is an ordinary exception, so a bare [except:]
    catches it like any other. *)
Inductive exn : Type :=
| HTTPException (code : Z)
| AttributeError
| KeyError
| TypeError
| ValueError
| SQLAlchemyError.

Inductive outcome (A : Type) : Type :=
| Return (a : A)
| Raise (e : exn).
Arguments Return {A} a.
Arguments Raise {A} e.

(** [bool(v)] of a decoded value. *)
Definition truthy (v : json) : bool :=
  match v with
  | JNull => false
  | JBool b => b
  | JNum z => negb (z =? 0)
  | JStr s => match s with EmptyString => false | String _ _ => true end
  | JArr items => match items with [] => false | _ => true end
  | JObj fields => match fields with [] => false | _ => true end
  end.

(** Lookup in a decoded object; the decoder keeps one binding per key. *)
Fixpoint assoc (key : string) (fields : list (string * json)) : option json :=
  match fields with
  | [] => None
  | (k, v) :: rest => if String.eqb k key then Some v else assoc key rest
  end.

(** The value under [key], or [None]. *)
Definition field (key : string) (fields : list (string * json)) : json :=
  default JNull (assoc key fields).

(** [v.get(key, None)]: only a dict has [.get]. *)
Definition dict_get (v : json) (key : string) : outcome json :=
  match v with
  | JObj fields => Return (field key fields)
  | _ => Raise AttributeError
  end.

(** [v[key]] with a string key. *)
Definition subscript (v : json) (key : string) : outcome json :=
  match v with
  | JObj fields =>
      match assoc key fields with
      | Some x => Return x
      | None => Raise KeyError
      end
  | _ => Raise TypeError
  end.

(** [n == v] for an integer [n]; Python's [True] and [False] compare equal
    to 1 and 0. *)
Definition int_eq (n : Z) (v : json) : bool :=
  match v with
  | JNum z => n =? z
  | JBool b => n =? (if b then 1 else 0)
  | _ => false
  end.

(** [n in v] for an integer [n] and a truthy [v]: a list is searched with
    [==], a dict has string keys only, a string refuses a non-string left
    operand and a number is not iterable. *)
Definition py_in (n : Z) (v : json) : outcome bool :=
  match v with
  | JArr items => Return (existsb (int_eq n) items)
  | JObj _ => Return false
  | _ => Raise TypeError
  end.

(** [l[start:stop]] as CPython adjusts the bounds: a negative bound counts
    from the end of the list, and both are clamped to [0, len(l)]. *)
Definition adjust_index (len i : Z) : Z :=
  if i <? 0 then Z.max (i + len) 0 else Z.min i len.

Definition py_slice {A} (l : list A) (start stop : Z) : list A :=
  let len := Z.of_nat (length l) in
  let lo := adjust_index len start in
  let hi := adjust_index len stop in
  take (Z.to_nat (hi - lo)) (drop (Z.to_nat lo) l).

(** ** The models (models.py) *)

(** Modelled from the spec: models.py is not among the sources. A Question
    row has an integer primary key [id], the texts [question] and [answer],
    an integer [category] and an integer [difficulty]; [format()] is the
    flat object of these attributes, so the record stands for it too. *)
Record Question : Type := mkQuestion {
  id : Z;
  question : string;
  answer : string;
  category : Z;
  difficulty : Z
}.

(** Modelled from the spec: models.py is not among the sources. A Category
    row has an integer primary key and a free-text label. *)
Record Category : Type := mkCategory {
  category_id : Z;
  type : string
}.

Global Instance Question_eq_dec : EqDecision Question.
Proof. solve_decision. Defined.

(** Modelled from the spec: the store holds the two tables, rows in the
    order the store keeps them, and the sequence from which the next
    Question id is assigned. *)
Record Store : Type := mkStore {
  question_rows : list Question;
  category_rows : list Category;
  question_seq : Z
}.

(** What the missing layers decide and the views only pass along: how the
    store binds a decoded value to an integer or a text column ([None] when
    it refuses the value), and [str()] of a decoded value that is not a
    string, as an f-string formats it. *)
Class Runtime : Type := {
  bind_int : json → option Z;
  bind_text : json → option string;
  py_str : json → string
}.

(** The binding that accepts exactly the values of the column's own type;
    it serves the examples, none of which formats a value that is not a
    string. *)
Definition strict_runtime : Runtime := {|
  bind_int v := match v with JNum z => Some z | _ => None end;
  bind_text v := match v with JStr s => Some s | _ => None end;
  py_str _ := "None"%string
|}.

(** ** Computations over the store *)

Definition view (A : Type) : Type := Store → outcome A * Store.

Definition ret {A} (a : A) : view A := λ st, (Return a, st).
Definition raise {A} (e : exn) : view A := λ st, (Raise e, st).
Definition bind {A B} (m : view A) (k : A → view B) : view B :=
  λ st, match m st with
        | (Return a, st') => k a st'
        | (Raise e, st') => (Raise e, st')
        end.
Definition lift {A} (o : outcome A) : view A := λ st, (o, st).

(** [abort(code)]. *)
Definition abort {A} (code : Z) : view A := raise (HTTPException code).

(** [try: body except: handler] with a bare [except:], which catches
    every exception, those of [abort] included. What the body committed to
    the store stays committed. *)
Definition try_except {A} (body handler : view A) : view A :=
  λ st, match body st with
        | (Return a, st') => (Return a, st')
        | (Raise _, st') => handler st'
        end.

Declare Scope view_scope.
Delimit Scope view_scope with view.
Notation "'let!' x := m 'in' k" := (bind m (λ x, k))
  (at level 10, x name, m at level 100, k at level 200) : view_scope.
Notation "'do!' m 'in' k" := (bind m (λ _, k))
  (at level 10, m at level 100, k at level 200) : view_scope.
Local Open Scope view_scope.

(** ** Queries *)

Definition id_le (q1 q2 : Question) : Prop := id q1 ≤ id q2.
Global Instance id_le_dec : RelDecision id_le.
Proof. intros q1 q2. unfold id_le. apply _. Defined.

Definition category_le (c1 c2 : Category) : Prop := category_id c1 ≤ category_id c2.
Global Instance category_le_dec : RelDecision category_le.
Proof. intros c1 c2. unfold category_le. apply _. Defined.

(** [.order_by(Question.id)] on the rows a query selects. *)
Definition order_by_id (rows : list Question) : list Question :=
  merge_sort id_le rows.

(** [Question.query.order_by(Question.id).all()] *)
Definition query_order_by_id : view (list Question) :=
  λ st, (Return (order_by_id (question_rows st)), st).

(** [Question.query.all()] *)
Definition query_all : view (list Question) :=
  λ st, (Return (question_rows st), st).

(** [Question.query.filter_by(category=c)], before [.all()] or
    [.order_by(...)]. *)
Definition filter_by_category (c : Z) (rows : list Question) : list Question :=
  filter (λ q, category q = c) rows.

(** [Question.query.filter_by(id=i).one_or_none()]: more than one row
    raises. *)
Definition query_one_or_none (i : Z) : view (option Question) :=
  λ st, match filter (λ q, id q = i) (question_rows st) with
        | [] => (Return None, st)
        | [q] => (Return (Some q), st)
        | _ => (Raise SQLAlchemyError, st)
        end.

(** [question.delete()]: the row of that primary key leaves the table. *)
Definition row_delete (q : Question) : view unit :=
  λ st, (Return (),
         {| question_rows := filter (λ r, id r ≠ id q) (question_rows st);
            category_rows := category_rows st;
            question_seq := question_seq st |}).

(** [Question(question=..., ...).insert()]: the store binds the four values
    to their columns, assigns the id and appends the row. *)
Definition row_insert `{Runtime} (q a c d : json) : view unit :=
  λ st, match bind_text q, bind_text a, bind_int c, bind_int d with
        | Some q', Some a', Some c', Some d' =>
            (Return (),
             {| question_rows :=
                  question_rows st ++ [mkQuestion (question_seq st) q' a' c' d'];
                category_rows := category_rows st;
                question_seq := question_seq st + 1 |})
        | _, _, _, _ => (Raise SQLAlchemyError, st)
        end.

(** ** SQL pattern matching *)

(** ASCII case folding, as the store applies it for a case-insensitive
    comparison. *)
Definition to_lower (c : ascii) : ascii :=
  let n := N_of_ascii c in
  if ((65 <=? n) && (n <=? 90))%N then ascii_of_N (n + 32) else c.


(** SQL's [text LIKE pattern]: [%] stands for any run of characters, [_]
    for any one character, and a backslash takes the next pattern character
    literally. A pattern that ends in a backslash matches nothing; the views
    never build one, since they close every pattern with [%]. *)
Fixpoint like (pattern : list ascii) : list ascii → bool :=
  match pattern with
  | [] => λ text, match text with [] => true | _ => false end
  | c :: pattern' =>
      if Ascii.eqb c "%" then
        fix skip (text : list ascii) : bool :=
          like pattern' text
          || match text with [] => false | _ :: text' => skip text' end
      else if Ascii.eqb c "_" then
        λ text, match text with [] => false | _ :: text' => like pattern' text' end
      else if Ascii.eqb c "\" then
        match pattern' with
        | [] => λ _, false
        | d :: pattern'' =>
            λ text, match text with
                    | [] => false
                    | x :: text' => Ascii.eqb x d && like pattern'' text'
                    end
        end
      else
        λ text, match text with
                | [] => false
                | x :: text' => Ascii.eqb x c && like pattern' text'
                end
  end.

(** [column.ilike(pattern)]: LIKE with both sides case-folded. *)
Definition ilike (text pattern : string) : bool :=
  like (to_lower <$> list_ascii_of_string pattern)
       (to_lower <$> list_ascii_of_string text).

(** [f"{v}"]: a string is itself, anything else goes through [str()]. *)
Definition fstring `{Runtime} (v : json) : string :=
  match v with
  | JStr s => s
  | _ => py_str v
  end.

(** ** Responses *)

(** The JSON bodies of the views; all but [ErrorJson] carry
    [success: true], and [current_category] is [None] wherever the body has
    the key. *)
Inductive payload : Type :=
| CategoriesJson (categories : gmap Z string)
| QuestionPageJson (questions : list Question) (total_questions : nat)
                   (categories : gmap Z string)
| QuestionsJson (questions : list Question) (total_questions : nat)
| DeletedJson (deleted : Z)
| SuccessJson
| QuizJson (question : option Question)
| ErrorJson (error : Z) (message : string)
| DefaultErrorPage (code : Z).

Record response : Type := mkResponse {
  status : Z;
  body : payload
}.

(** The registered [@app.errorhandler]s; any other code gets the
    framework's own page. *)
Definition error_response (code : Z) : response :=
  if code =? 404 then mkResponse 404 (ErrorJson 404 "resource not found")
  else if code =? 422 then mkResponse 422 (ErrorJson 422 "unprocessable")
  else if code =? 400 then mkResponse 400 (ErrorJson 400 "bad request")
  else if code =? 405 then mkResponse 405 (ErrorJson 405 "method not allowed")
  else if code =? 500 then mkResponse 500 (ErrorJson 500 "server error")
  else mkResponse code (DefaultErrorPage code).

(** Flask around a view: a returned body is a 200, an [HTTPException]
    goes to the handler of its code, any other exception is a 500. *)
Definition full_dispatch (v : view payload) (st : Store) : response * Store :=
  match v st with
  | (Return p, st') => (mkResponse 200 p, st')
  | (Raise (HTTPException code), st') => (error_response code, st')
  | (Raise _, st') => (error_response 500, st')
  end.

(** ** The views *)

Definition QUESTIONS_PER_PAGE : Z := 10.

(** The body of [format_categories] once the rows are fetched: the dict
    filled in id order. *)
Definition category_dict (rows : list Category) : gmap Z string :=
  foldl (λ categories c, <[category_id c := type c]> categories)
        ∅ (merge_sort category_le rows).

Definition format_categories : view (gmap Z string) :=
  λ st, (Return (category_dict (category_rows st)), st).

(** [request.args.get("page", 1, type=int)]: [None] is a missing or
    non-integer parameter. *)
Definition args_get_page (arg : option Z) : Z := default 1 arg.

Definition get_categories : view payload :=
  let! categories := format_categories in
  ret (CategoriesJson categories).

Definition get_questions (page_arg : option Z) : view payload :=
  let page := args_get_page page_arg in
  let start := (page - 1) * QUESTIONS_PER_PAGE in
  let stop := start + QUESTIONS_PER_PAGE in
  let! questions := query_order_by_id in
  let current_questions := py_slice questions start stop in
  let! categories := format_categories in
  if (length current_questions =? 0)%nat then abort 404
  else ret (QuestionPageJson current_questions (length questions) categories).

Definition delete_question (i : Z) : view payload :=
  try_except
    (let! found := query_one_or_none i in
     match found with
     | None => abort 404
     | Some q => do! row_delete q in ret (DeletedJson i)
     end)
    (abort 422).

(** The rows whose question text matches [%term%], in id order. *)
Definition query_search `{Runtime} (searchTerm : json) : view (list Question) :=
  λ st,
    let pattern := ("%" +:+ fstring searchTerm +:+ "%")%string in
    (Return (order_by_id
               (filter (λ q, ilike (question q) pattern = true)
                       (question_rows st))), st).

Definition create_question `{Runtime} (page_arg : option Z) (body : json)
  : view payload :=
  let! question := lift (dict_get body "question") in
  let! answer := lift (dict_get body "answer") in
  let! category := lift (dict_get body "category") in
  let! difficulty := lift (dict_get body "difficulty") in
  let! searchTerm := lift (dict_get body "searchTerm") in
  try_except
    (if truthy searchTerm then
       let! questions := query_search searchTerm in
       let page := args_get_page page_arg in
       let start := (page - 1) * QUESTIONS_PER_PAGE in
       let stop := start + QUESTIONS_PER_PAGE in
       let current_questions := py_slice questions start stop in
       ret (QuestionsJson current_questions (length questions))
     else
       if negb (truthy question) || negb (truthy answer)
          || negb (truthy category) || negb (truthy difficulty)
       then abort 400
       else
         do! row_insert question answer category difficulty in
         ret SuccessJson)
    (abort 422).

Definition get_by_category (category_id : Z) : view payload :=
  λ st,
    let questions :=
      order_by_id (filter_by_category category_id (question_rows st)) in
    (Return (QuestionsJson questions (length questions)), st).

(** [questions.remove(q)]: drops the first element equal to [q], and
    raises when there is none. *)
Fixpoint list_remove (q : Question) (l : list Question) : outcome (list Question) :=
  match l with
  | [] => Raise ValueError
  | x :: l' =>
      if decide (x = q) then Return l'
      else match list_remove q l' with
           | Return r => Return (x :: r)
           | Raise e => Raise e
           end
  end.

(** The loop [for question in list(questions): if question["id"] in
    past_questions: questions.remove(question)], run over the copy
    [snapshot] while [questions] is the list being edited. *)
Fixpoint remove_seen (past_questions : json) (snapshot questions : list Question)
  : outcome (list Question) :=
  match snapshot with
  | [] => Return questions
  | q :: rest =>
      match py_in (id q) past_questions with
      | Raise e => Raise e
      | Return true =>
          match list_remove q questions with
          | Raise e => Raise e
          | Return questions' => remove_seen past_questions rest questions'
          end
      | Return false => remove_seen past_questions rest questions
      end
  end.

(** [Question.query.filter_by(category=v).all()] for a decoded value [v]. *)
Definition query_filter_by_category `{Runtime} (v : json) : view (list Question) :=
  λ st, match bind_int v with
        | Some c => (Return (filter_by_category c (question_rows st)), st)
        | None => (Raise SQLAlchemyError, st)
        end.

(** [random.choice(l)], where [rnd] is what the generator draws: the
    element at [rnd] reduced below [len(l)]. *)
Definition random_choice (rnd : nat) (l : list Question) : option Question :=
  l !! (rnd mod length l)%nat.

(** The query of the quiz: the questions of [category["id"]] when
    [category and category["id"]] is truthy, all questions otherwise. *)
Definition quiz_query `{Runtime} (category : json) : view (list Question) :=
  let! in_category :=
    (if truthy category then
       let! i := lift (subscript category "id") in ret (truthy i)
     else ret false) in
  if in_category : bool then
    let! i := lift (subscript category "id") in query_filter_by_category i
  else query_all.

Definition get_quizzes `{Runtime} (rnd : nat) (body : json) : view payload :=
  try_except
    (let! past_questions := lift (dict_get body "previous_questions") in
     let! category := lift (dict_get body "quiz_category") in
     let! questions := quiz_query category in
     do! (if (length questions =? 0)%nat then abort 404 else ret ()) in
     let! questions :=
       (if truthy past_questions
        then lift (remove_seen past_questions questions questions)
        else ret questions) in
     let question :=
       if (length questions =? 0)%nat then None
       else random_choice rnd questions in
     ret (QuizJson question))
    (abort 400).

(** The responses of the three error handlers the views reach. *)
Definition not_found : response :=
  mkResponse 404 (ErrorJson 404 "resource not found").
Definition unprocessable : response :=
  mkResponse 422 (ErrorJson 422 "unprocessable").
Definition bad_request : response :=
  mkResponse 400 (ErrorJson 400 "bad request").

(** The window of [page] over [rows], as [get_questions] and the search
    compute it. *)
Definition current_page (page : Z) (rows : list Question) : list Question :=
  py_slice rows ((page - 1) * QUESTIONS_PER_PAGE)
                ((page - 1) * QUESTIONS_PER_PAGE + QUESTIONS_PER_PAGE).

(** ** The words of the specification *)

(** "The contiguous slice [lo, hi)" of a list: the items whose position,
    counted from 0, is at least [lo] and below [hi]. *)
Fixpoint window_from {A} (pos lo hi : Z) (l : list A) : list A :=
  match l with
  | [] => []
  | x :: l' =>
      if decide (lo ≤ pos < hi) then x :: window_from (pos + 1) lo hi l'
      else window_from (pos + 1) lo hi l'
  end.

Definition window {A} (lo hi : Z) (l : list A) : list A := window_from 0 lo hi l.

(** "[text] contains [term] as a substring". *)
Fixpoint starts_with (term text : list ascii) : bool :=
  match term, text with
  | [], _ => true
  | _ :: _, [] => false
  | c :: term', x :: text' => Ascii.eqb x c && starts_with term' text'
  end.

Fixpoint has_substring (term text : list ascii) : bool :=
  starts_with term text
  || match text with [] => false | _ :: text' => has_substring term text' end.

(** "... case-insensitively". *)
Definition contains_ci (term text : string) : bool :=
  has_substring (to_lower <$> list_ascii_of_string term)
                (to_lower <$> list_ascii_of_string text).

(** A body of the quiz request whose [previous_questions] is a list of
    ids. *)
Definition quiz_body (previous_questions : list Z) (quiz_category : json) : json :=
  JObj [("previous_questions"%string, JArr (JNum <$> previous_questions));
        ("quiz_category"%string, quiz_category)].


(** What is left of the fetched questions once the ids of [prev] are
    taken out. *)
Definition unseen (prev : list Z) (fetched : list Question) : list Question :=
  filter (λ q, id q ∉ prev) fetched.

(** ** Stores and requests used in the examples *)

Definition sample_question (i : Z) : Question :=
  mkQuestion i "What is H2O?" "Water" 1 1.

Definition empty_store : Store := mkStore [] [] 1.

Definition one_question_store : Store :=
  mkStore [sample_question 1] [mkCategory 1 "Science"] 2.

Definition eleven_question_store : Store :=
  mkStore (sample_question <$> [1; 2; 3; 4; 5; 6; 7; 8; 9; 10; 11])
          [mkCategory 1 "Science"; mkCategory 2 "Art"] 12.

(** A search request that also carries the four fields of a new question. *)
Definition search_and_fields : list (string * json) :=
  [("question"%string, JStr "What is CO2?"); ("answer"%string, JStr "A gas");
   ("category"%string, JNum 1); ("difficulty"%string, JNum 2);
   ("searchTerm"%string, JStr "h2o")].

(** ** Further vocabulary of the properties *)



(** Modelled from the spec: [id] is the primary key of a Question and is
    assigned by the store, so the ids of the rows are pairwise different and
    lie below the sequence the next id comes from. *)
Definition store_ok (st : Store) : Prop :=
  NoDup (id <$> question_rows st)
  ∧ ∀ q, q ∈ question_rows st → id q < question_seq st.

(** The row the store builds for a new question of these columns. *)
Definition new_row (st : Store) (q a : string) (c d : Z) : Question :=
  mkQuestion (question_seq st) q a c d.

(** The store after that row is inserted. *)
Definition store_with (st : Store) (row : Question) : Store :=
  mkStore (question_rows st ++ [row]) (category_rows st) (question_seq st + 1).

(** The store after the rows of primary key [i] are deleted. *)
Definition store_without (st : Store) (i : Z) : Store :=
  mkStore (filter (λ r, id r ≠ i) (question_rows st))
          (category_rows st) (question_seq st).

(** A create request the view lets through, whose four values the store
    binds to the columns [q], [a], [c] and [d]. *)
Definition accepts `{Runtime} (fields : list (string * json))
    (q a : string) (c d : Z) : Prop :=
  truthy (field "searchTerm" fields) = false
  ∧ truthy (field "question" fields) = true
  ∧ truthy (field "answer" fields) = true
  ∧ truthy (field "category" fields) = true
  ∧ truthy (field "difficulty" fields) = true
  ∧ bind_text (field "question" fields) = Some q
  ∧ bind_text (field "answer" fields) = Some a
  ∧ bind_int (field "category" fields) = Some c
  ∧ bind_int (field "difficulty" fields) = Some d.

(** Whether [n in v] is defined for a decoded value: it is for a list and
    for a dict. *)
Definition is_container (v : json) : bool :=
  match v with JArr _ | JObj _ => true | _ => false end.

(** A complete body of a create request. *)
Definition create_body (q a : string) (c d : Z) : list (string * json) :=
  [("question"%string, JStr q); ("answer"%string, JStr a);
   ("category"%string, JNum c); ("difficulty"%string, JNum d)].

(** A store with two categories given out of id order. *)
Definition two_category_store : Store :=
  mkStore [mkQuestion 1 "What is H2O?" "Water" 1 1;
           mkQuestion 2 "Who painted the Mona Lisa?" "Leonardo" 2 3;
           mkQuestion 3 "What is the title of the anthem?" "None" 2 2]
          [mkCategory 2 "Art"; mkCategory 1 "Science"] 4.

(** Quiz requests: the questions of category 2 after question 2, all
    categories as a client sends it (id 0), and a category without id. *)
Definition art_quiz_fields : list (string * json) :=
  [("previous_questions"%string, JArr [JNum 2]);
   ("quiz_category"%string, JObj [("id"%string, JNum 2)])].

Definition all_quiz_fields : list (string * json) :=
  [("previous_questions"%string, JArr [JNum 1]);
   ("quiz_category"%string,
    JObj [("type"%string, JStr "click"); ("id"%string, JNum 0)])].

Definition typed_quiz_fields : list (string * json) :=
  [("previous_questions"%string, JArr []);
   ("quiz_category"%string, JObj [("type"%string, JStr "Art")])].

(** * Properties *)

(** ** Slicing *)

Section slicing.
Context {A : Type}.
Implicit Types l : list A.

Lemma adjust_index_range len i : 0 ≤ len → 0 ≤ adjust_index len i ≤ len.
Proof. unfold adjust_index. destruct (Z.ltb_spec i 0); lia. Qed.

Lemma py_slice_stop_zero l start : py_slice l start 0 = [].
Proof.
  unfold py_slice.
  pose proof (adjust_index_range (Z.of_nat (length l)) start ltac:(lia)) as Hlo.
  assert (adjust_index (Z.of_nat (length l)) 0 = 0) as ->.
  { unfold adjust_index. simpl. lia. }
  replace (Z.to_nat _) with 0%nat by lia. done.
Qed.

Lemma py_slice_length l start stop :
  0 ≤ stop - start → (length (py_slice l start stop) ≤ Z.to_nat (stop - start))%nat.
Proof.
  intros Hle. unfold py_slice. rewrite length_take.
  set (len := Z.of_nat (length l)).
  assert (adjust_index len stop - adjust_index len start ≤ stop - start).
  { unfold adjust_index.
    destruct (Z.ltb_spec stop 0), (Z.ltb_spec start 0); lia. }
  lia.
Qed.

Lemma py_slice_contiguous l start stop :
  ∃ k, py_slice l start stop = take (length (py_slice l start stop)) (drop k l).
Proof.
  unfold py_slice.
  exists (Z.to_nat (adjust_index (Z.of_nat (length l)) start)).
  by rewrite length_take, <- take_take, firstn_all.
Qed.

Lemma py_slice_nonneg l start stop :
  0 ≤ start ≤ stop →
  py_slice l start stop = take (Z.to_nat (stop - start)) (drop (Z.to_nat start) l).
Proof.
  intros [H0 Hle]. unfold py_slice, adjust_index.
  destruct (Z.ltb_spec stop 0); [lia|].
  destruct (Z.ltb_spec start 0); [lia|].
  destruct (Z.le_gt_cases (Z.of_nat (length l)) start) as [Hbig|Hin].
  - rewrite !drop_ge by lia. by rewrite !take_nil.
  - rewrite (Z.min_l start) by lia.
    destruct (Z.le_gt_cases stop (Z.of_nat (length l))).
    + by rewrite Z.min_l by lia.
    + rewrite Z.min_r by lia.
      rewrite !take_ge; [done | |]; rewrite length_drop; lia.
Qed.

Lemma window_from_take_drop pos lo hi l :
  window_from pos lo hi l
  = take (Z.to_nat (hi - Z.max lo pos)) (drop (Z.to_nat (lo - pos)) l).
Proof.
  revert pos. induction l as [|x l IH]; intros pos; simpl.
  { by rewrite drop_nil, take_nil. }
  rewrite IH. destruct (decide (lo ≤ pos < hi)) as [Hin|Hout].
  - replace (Z.to_nat (lo - pos)) with 0%nat by lia.
    replace (Z.to_nat (lo - (pos + 1))) with 0%nat by lia.
    replace (Z.to_nat (hi - Z.max lo pos))
      with (S (Z.to_nat (hi - Z.max lo (pos + 1)))) by lia.
    done.
  - destruct (Z.lt_ge_cases pos lo) as [Hlt|Hge].
    + replace (Z.to_nat (lo - pos)) with (S (Z.to_nat (lo - (pos + 1)))) by lia.
      simpl. do 2 f_equal. lia.
    + replace (Z.to_nat (hi - Z.max lo (pos + 1))) with 0%nat by lia.
      replace (Z.to_nat (hi - Z.max lo pos)) with 0%nat by lia.
      done.
Qed.

Lemma window_nonneg lo hi l :
  0 ≤ lo →
  window lo hi l = take (Z.to_nat (hi - lo)) (drop (Z.to_nat lo) l).
Proof.
  intros Hlo. unfold window. rewrite window_from_take_drop.
  do 2 f_equal; [f_equal|]; lia.
Qed.

Lemma py_slice_window l start stop :
  0 ≤ start ≤ stop → py_slice l start stop = window start stop l.
Proof.
  intros H. rewrite py_slice_nonneg, window_nonneg by lia. done.
Qed.
End slicing.

(** ** Ordering by id *)

Global Instance id_le_total : Total id_le.
Proof. intros q1 q2. unfold id_le. lia. Qed.

Global Instance id_le_trans : Transitive id_le.
Proof. intros q1 q2 q3. unfold id_le. lia. Qed.

Lemma order_by_id_Permutation rows : order_by_id rows ≡ₚ rows.
Proof. apply merge_sort_Permutation. Qed.

Lemma order_by_id_Sorted rows : Sorted id_le (order_by_id rows).
Proof. apply (Sorted_merge_sort id_le). Qed.

Lemma order_by_id_length rows : length (order_by_id rows) = length rows.
Proof. by rewrite order_by_id_Permutation. Qed.

Lemma order_by_id_elem_of q rows : q ∈ order_by_id rows ↔ q ∈ rows.
Proof. by rewrite order_by_id_Permutation. Qed.

(** ** Listing questions *)

Lemma get_questions_run page_arg st :
  get_questions page_arg st =
  (match current_page (args_get_page page_arg) (order_by_id (question_rows st)) with
   | [] => Raise (HTTPException 404)
   | qs => Return (QuestionPageJson qs (length (order_by_id (question_rows st)))
                                    (category_dict (category_rows st)))
   end, st).
Proof.
  unfold get_questions, bind, query_order_by_id, format_categories. simpl.
  fold (current_page (args_get_page page_arg) (order_by_id (question_rows st))).
  by destruct (current_page _ _).
Qed.

Lemma current_page_length page rows : (length (current_page page rows) ≤ 10)%nat.
Proof.
  unfold current_page.
  etrans; [apply py_slice_length|]; unfold QUESTIONS_PER_PAGE; lia.
Qed.

Lemma current_page_window page rows :
  1 ≤ page →
  current_page page rows = window ((page - 1) * 10) ((page - 1) * 10 + 10) rows.
Proof.
  intros Hpage. unfold current_page, QUESTIONS_PER_PAGE.
  apply py_slice_window. lia.
Qed.

Lemma current_page_zero rows : current_page 0 rows = [].
Proof. unfold current_page. apply py_slice_stop_zero. Qed.

Lemma current_page_beyond page rows :
  1 ≤ page → Z.of_nat (length rows) ≤ (page - 1) * 10 → current_page page rows = [].
Proof.
  intros Hpage Hlen. rewrite current_page_window, window_nonneg by lia.
  by rewrite drop_ge, take_nil by lia.
Qed.

Lemma current_page_nil page : current_page page [] = [].
Proof. unfold current_page, py_slice. by rewrite drop_nil, take_nil. Qed.

(** C10: [list_questions(0)]: for page 0 the window is the slice from -10 to
    0, which is empty whatever the store holds, so the request is always
    answered with 404 "resource not found" and the store is untouched. *)
Theorem list_questions_page_zero_not_found st :
  full_dispatch (get_questions (Some 0)) st = (not_found, st).
Proof.
  unfold full_dispatch. rewrite get_questions_run. simpl.
  by rewrite current_page_zero.
Qed.

(** C6: [list_questions(page)]: whenever the window the view slices out of
    the id-ordered questions is empty, the request is answered with 404
    "resource not found". *)
Theorem list_questions_empty_window_not_found page_arg st :
  current_page (args_get_page page_arg) (order_by_id (question_rows st)) = [] →
  full_dispatch (get_questions page_arg) st = (not_found, st).
Proof.
  intros Hempty. unfold full_dispatch. by rewrite get_questions_run, Hempty.
Qed.

Lemma list_questions_empty_window_witness :
  current_page (args_get_page (Some 2)) (order_by_id (question_rows one_question_store)) = []
  ∧ full_dispatch (get_questions (Some 2)) one_question_store = (not_found, one_question_store).
Proof.
  split; [reflexivity|].
  apply (list_questions_empty_window_not_found (Some 2) one_question_store).
  reflexivity.
Defined.

(** The two ways the specification names for the window to be empty: a
    page beyond the last non-empty one, and a store without questions. *)
Lemma list_questions_beyond_last_page page_arg st :
  1 ≤ args_get_page page_arg →
  Z.of_nat (length (question_rows st)) ≤ (args_get_page page_arg - 1) * 10 →
  full_dispatch (get_questions page_arg) st = (not_found, st).
Proof.
  intros Hpage Hlen. unfold full_dispatch.
  rewrite get_questions_run, current_page_beyond; [done..|].
  by rewrite order_by_id_length.
Qed.

Lemma list_questions_no_questions page_arg st :
  question_rows st = [] →
  full_dispatch (get_questions page_arg) st = (not_found, st).
Proof.
  intros Hnil. unfold full_dispatch. rewrite get_questions_run, Hnil.
  change (order_by_id []) with (@nil Question). by rewrite current_page_nil.
Qed.

(** C5 (amended): [list_questions(page)]: whenever the request succeeds,
    [total_questions] is the number of all questions in the store, and the
    returned questions are at most 10 and form a contiguous run of all
    questions ordered by ascending id; for a page that is not negative they
    are exactly the items at positions [(page-1)*10, (page-1)*10+10) of that
    ordered list. (For a negative page Python counts both bounds from the
    end of the list.) *)
Theorem list_questions_page page_arg st qs total cats :
  (full_dispatch (get_questions page_arg) st).1
    = mkResponse 200 (QuestionPageJson qs total cats) →
  order_by_id (question_rows st) ≡ₚ question_rows st
  ∧ Sorted id_le (order_by_id (question_rows st))
  ∧ total = length (question_rows st)
  ∧ (length qs ≤ 10)%nat
  ∧ (∃ k, qs = take (length qs) (drop k (order_by_id (question_rows st))))
  ∧ (0 ≤ args_get_page page_arg →
     qs = window ((args_get_page page_arg - 1) * 10)
                 ((args_get_page page_arg - 1) * 10 + 10)
                 (order_by_id (question_rows st))).
Proof.
  unfold full_dispatch. rewrite get_questions_run.
  destruct (current_page _ _) as [|q qs'] eqn:Hpage; simpl; [done|].
  intros [= <- <- <-].
  split_and!.
  - apply order_by_id_Permutation.
  - apply order_by_id_Sorted.
  - apply order_by_id_length.
  - rewrite <- Hpage. apply current_page_length.
  - rewrite <- Hpage. apply py_slice_contiguous.
  - intros Hnonneg. rewrite <- Hpage.
    destruct (decide (args_get_page page_arg = 0)) as [Hzero|Hpos].
    + rewrite Hzero, current_page_zero in Hpage. discriminate Hpage.
    + apply current_page_window. lia.
Qed.

Lemma list_questions_page_witness :
  (full_dispatch (get_questions (Some 2)) eleven_question_store).1
    = mkResponse 200
        (QuestionPageJson [sample_question 11] 11
           (category_dict (category_rows eleven_question_store)))
  ∧ 11%nat = length (question_rows eleven_question_store)
  ∧ [sample_question 11]
    = window 10 20 (order_by_id (question_rows eleven_question_store)).
Proof.
  split; [reflexivity|].
  destruct (list_questions_page (Some 2) eleven_question_store
              [sample_question 11] 11
              (category_dict (category_rows eleven_question_store)) eq_refl)
    as (_ & _ & Htotal & _ & _ & Hwindow).
  split; [exact Htotal|]. apply Hwindow. simpl. lia.
Defined.

(** C5 as stated fails at page -1 over eleven questions: the view slices
    [questions[-20:-10]], which Python reads as the first item of the list,
    while no position of the list lies between -20 and -10. *)
Lemma list_questions_negative_page_not_window :
  ¬ ∀ page_arg st qs total cats,
      (full_dispatch (get_questions page_arg) st).1
        = mkResponse 200 (QuestionPageJson qs total cats) →
      qs = window ((args_get_page page_arg - 1) * 10)
                  ((args_get_page page_arg - 1) * 10 + 10)
                  (order_by_id (question_rows st)).
Proof.
  intros Hclaim.
  specialize (Hclaim (Some (-1)) eleven_question_store
                [sample_question 1] 11%nat
                (category_dict (category_rows eleven_question_store)) eq_refl).
  vm_compute in Hclaim. discriminate Hclaim.
Qed.

(** ** Questions of a category *)

(** C8: [list_by_category(category_id)]: the request always succeeds; it
    returns all questions of that category and only those (each as often as
    the store holds it, no window applied), ordered by ascending id,
    together with their count; with no such question that is an empty list
    and a count of 0. *)
Theorem list_by_category_full_ordered cid st :
  ∃ qs,
    full_dispatch (get_by_category cid) st
      = (mkResponse 200 (QuestionsJson qs (length qs)), st)
    ∧ qs ≡ₚ filter (λ q, category q = cid) (question_rows st)
    ∧ Sorted id_le qs
    ∧ (∀ q, q ∈ qs ↔ q ∈ question_rows st ∧ category q = cid).
Proof.
  exists (order_by_id (filter_by_category cid (question_rows st))).
  split_and!.
  - done.
  - apply order_by_id_Permutation.
  - apply order_by_id_Sorted.
  - intros q. rewrite order_by_id_elem_of. unfold filter_by_category.
    rewrite list_elem_of_filter. tauto.
Qed.

(** ** Deleting a question *)

Lemma filter_id_absent i rows :
  (∀ q, q ∈ rows → id q ≠ i) → filter (λ q, id q = i) rows = [].
Proof.
  induction rows as [|r rows IH]; intros Habsent; [done|].
  rewrite filter_cons_False; [|apply Habsent; left].
  apply IH. intros q Hq. apply Habsent. by right.
Qed.

Lemma delete_question_absent_run i st :
  (∀ q, q ∈ question_rows st → id q ≠ i) →
  delete_question i st = (Raise (HTTPException 422), st).
Proof.
  intros Habsent. unfold delete_question, try_except, bind, query_one_or_none.
  by rewrite filter_id_absent.
Qed.

Lemma delete_question_present_run i q st :
  filter (λ r, id r = i) (question_rows st) = [q] →
  delete_question i st
  = (Return (DeletedJson i),
     mkStore (filter (λ r, id r ≠ i) (question_rows st))
             (category_rows st) (question_seq st)).
Proof.
  intros Hone. unfold delete_question, try_except, bind, query_one_or_none.
  rewrite Hone. simpl. unfold row_delete.
  assert (id q = i) as ->; [|done].
  assert (q ∈ filter (λ r, id r = i) (question_rows st)) as Hq
    by (rewrite Hone; left).
  by apply list_elem_of_filter in Hq as [? _].
Qed.

(** C1 (what the code does): [delete_question(id)] for an id with no row
    in the store: the [abort(404)] is raised inside the [try] and caught by
    its bare [except:], so the request is answered with 422
    "unprocessable", not with 404. The store is untouched. *)
Theorem delete_absent_question_unprocessable i st :
  (∀ q, q ∈ question_rows st → id q ≠ i) →
  full_dispatch (delete_question i) st = (unprocessable, st).
Proof.
  intros Habsent. unfold full_dispatch.
  by rewrite delete_question_absent_run.
Qed.

Lemma delete_absent_question_witness :
  (∀ q, q ∈ question_rows one_question_store → id q ≠ 7)
  ∧ full_dispatch (delete_question 7) one_question_store
    = (unprocessable, one_question_store).
Proof.
  assert (∀ q, q ∈ question_rows one_question_store → id q ≠ 7) as Habsent.
  { intros q Hq. apply list_elem_of_singleton in Hq as ->. done. }
  split; [exact Habsent|].
  exact (delete_absent_question_unprocessable 7 one_question_store Habsent).
Defined.

(** Deleting an existing id succeeds once; the same request again is
    answered with 422. *)
Lemma delete_twice_unprocessable i q st :
  filter (λ r, id r = i) (question_rows st) = [q] →
  ∃ st1,
    full_dispatch (delete_question i) st = (mkResponse 200 (DeletedJson i), st1)
    ∧ full_dispatch (delete_question i) st1 = (unprocessable, st1).
Proof.
  intros Hone. eexists. unfold full_dispatch.
  rewrite (delete_question_present_run i q st Hone). split; [done|].
  rewrite delete_question_absent_run; [done|]. simpl.
  intros r Hr. by apply list_elem_of_filter in Hr as [? _].
Qed.

(** ** Creating a question, searching *)

Section create.
Context `{Runtime}.

Lemma create_question_run page_arg fields st :
  create_question page_arg (JObj fields) st =
  try_except
    (if truthy (field "searchTerm" fields) then
       let! questions := query_search (field "searchTerm" fields) in
       ret (QuestionsJson (current_page (args_get_page page_arg) questions)
                          (length questions))
     else
       if negb (truthy (field "question" fields))
          || negb (truthy (field "answer" fields))
          || negb (truthy (field "category" fields))
          || negb (truthy (field "difficulty" fields))
       then abort 400
       else
         do! row_insert (field "question" fields) (field "answer" fields)
                        (field "category" fields) (field "difficulty" fields) in
         ret SuccessJson)%view
    (abort 422) st.
Proof. reflexivity. Qed.

(** C2 (what the code does): POST /questions in create mode (a falsy
    [searchTerm]) with any of [question], [answer], [category],
    [difficulty] missing or falsy: the [abort(400)] is raised inside the
    [try] and caught by its bare [except:], so the request is answered with
    422 "unprocessable", not with 400. Nothing is inserted. *)
Theorem create_missing_field_unprocessable page_arg fields st :
  truthy (field "searchTerm" fields) = false →
  truthy (field "question" fields) && truthy (field "answer" fields)
  && truthy (field "category" fields) && truthy (field "difficulty" fields)
  = false →
  full_dispatch (create_question page_arg (JObj fields)) st
  = (unprocessable, st).
Proof.
  intros Hterm Hmissing. unfold full_dispatch.
  rewrite create_question_run, Hterm. unfold try_except.
  destruct (truthy (field "question" fields)),
           (truthy (field "answer" fields)),
           (truthy (field "category" fields)),
           (truthy (field "difficulty" fields)); done.
Qed.

(** With the four fields truthy and accepted by their columns, the row is
    appended under the next id and the body is the bare success flag. *)
Lemma create_all_fields_inserts page_arg fields st q a c d :
  truthy (field "searchTerm" fields) = false →
  truthy (field "question" fields) = true →
  truthy (field "answer" fields) = true →
  truthy (field "category" fields) = true →
  truthy (field "difficulty" fields) = true →
  bind_text (field "question" fields) = Some q →
  bind_text (field "answer" fields) = Some a →
  bind_int (field "category" fields) = Some c →
  bind_int (field "difficulty" fields) = Some d →
  full_dispatch (create_question page_arg (JObj fields)) st
  = (mkResponse 200 SuccessJson,
     mkStore (question_rows st ++ [mkQuestion (question_seq st) q a c d])
             (category_rows st) (question_seq st + 1)).
Proof.
  intros Hterm Hq Ha Hc Hd Bq Ba Bc Bd. unfold full_dispatch.
  rewrite create_question_run, Hterm, Hq, Ha, Hc, Hd.
  unfold try_except, bind, row_insert. simpl.
  by rewrite Bq, Ba, Bc, Bd.
Qed.

Lemma truthy_JStr term : term ≠ EmptyString → truthy (JStr term) = true.
Proof. intros Hterm. simpl. by destruct term. Qed.

Lemma create_question_search_run page_arg fields term st :
  assoc "searchTerm" fields = Some (JStr term) → term ≠ EmptyString →
  create_question page_arg (JObj fields) st =
  (let matches :=
     order_by_id (filter (λ q, ilike (question q) ("%" +:+ term +:+ "%") = true)
                         (question_rows st)) in
   Return (QuestionsJson (current_page (args_get_page page_arg) matches)
                         (length matches)), st).
Proof.
  intros Hlookup Hterm. rewrite create_question_run.
  unfold field. rewrite Hlookup. simpl default.
  rewrite truthy_JStr by done. reflexivity.
Qed.

(** C9: POST /questions in search mode (a non-empty string as
    [searchTerm]): the store is left as it was, and the response is the one
    a body holding nothing but the [searchTerm] gets: [question], [answer],
    [category] and [difficulty] play no part. *)
Theorem search_mode_store_unchanged page_arg fields term st :
  assoc "searchTerm" fields = Some (JStr term) → term ≠ EmptyString →
  (full_dispatch (create_question page_arg (JObj fields)) st).2 = st
  ∧ full_dispatch (create_question page_arg (JObj fields)) st
    = full_dispatch
        (create_question page_arg (JObj [("searchTerm"%string, JStr term)])) st.
Proof.
  intros Hlookup Hterm. unfold full_dispatch.
  rewrite (create_question_search_run _ _ term) by done.
  rewrite (create_question_search_run _ _ term) by done.
  done.
Qed.
End create.

(** ** LIKE patterns without wildcards *)














Section search.
Context `{Runtime}.


(** No match is a success with an empty list and a total of 0. *)
Lemma search_no_match page_arg fields term st :
  assoc "searchTerm" fields = Some (JStr term) → term ≠ EmptyString →
  filter (λ q, ilike (question q) ("%" +:+ term +:+ "%") = true)
         (question_rows st) = [] →
  full_dispatch (create_question page_arg (JObj fields)) st
  = (mkResponse 200 (QuestionsJson [] 0), st).
Proof.
  intros Hlookup Hterm Hnone. unfold full_dispatch.
  rewrite (create_question_search_run _ _ term) by done. simpl.
  rewrite Hnone. change (order_by_id []) with (@nil Question).
  by rewrite current_page_nil.
Qed.

(** C7 (what the code does): the search term goes into the LIKE pattern
    unescaped, so its [_] and [%] are wildcards. Searching for an
    underscore returns a question whose text holds no underscore. *)
Theorem search_underscore_matches_any_text :
  full_dispatch
    (create_question None (JObj [("searchTerm"%string, JStr "_")]))
    one_question_store
  = (mkResponse 200 (QuestionsJson [sample_question 1] 1), one_question_store)
  ∧ contains_ci "_" (question (sample_question 1)) = false.
Proof. split; reflexivity. Qed.
End search.

(** ** The quiz *)

Lemma list_remove_middle q l1 l2 :
  q ∉ l1 → list_remove q (l1 ++ q :: l2) = Return (l1 ++ l2).
Proof.
  induction l1 as [|x l1 IH]; intros Hq; simpl.
  - by rewrite decide_True.
  - apply not_elem_of_cons in Hq as [Hne Hq].
    rewrite decide_False by done. by rewrite IH.
Qed.

Lemma remove_seen_filter past (seen : Z → bool) snapshot :
  (∀ n, py_in n past = Return (seen n)) →
  ∀ kept,
    (∀ q, q ∈ kept → seen (id q) = false) →
    remove_seen past snapshot (kept ++ snapshot)
    = Return (kept ++ filter (λ q, seen (id q) = false) snapshot).
Proof.
  intros Hin. induction snapshot as [|q rest IH]; intros kept Hkept.
  - done.
  - simpl. rewrite Hin. destruct (seen (id q)) eqn:Hseen.
    + rewrite list_remove_middle.
      * rewrite IH by done. by rewrite filter_cons_False by congruence.
      * intros Hq. apply Hkept in Hq. congruence.
    + rewrite filter_cons_True by done.
      rewrite (cons_middle q kept rest), (cons_middle q kept), !app_assoc.
      apply IH. intros r Hr. apply elem_of_app in Hr as [Hr | Hr]; [by apply Hkept|].
      by apply list_elem_of_singleton in Hr as ->.
Qed.

Lemma remove_seen_all past seen questions :
  (∀ n, py_in n past = Return (seen n)) →
  remove_seen past questions questions
  = Return (filter (λ q, seen (id q) = false) questions).
Proof.
  intros Hin. apply (remove_seen_filter past seen questions Hin []).
  by intros q Hq%elem_of_nil.
Qed.

Lemma existsb_int_eq n prev :
  existsb (int_eq n) (JNum <$> prev) = bool_decide (n ∈ prev).
Proof.
  induction prev as [|m prev IH]; csimpl; [done|].
  rewrite IH. destruct (Z.eqb_spec n m) as [->|Hne]; simpl.
  - symmetry. apply bool_decide_eq_true. left.
  - apply bool_decide_ext. rewrite elem_of_cons. tauto.
Qed.

Lemma unseen_nil fetched : unseen [] fetched = fetched.
Proof.
  unfold unseen. induction fetched as [|q l IH]; [done|].
  rewrite filter_cons_True by apply not_elem_of_nil. by rewrite IH.
Qed.

Lemma bind_lift_Return {A B} (a : A) (k : A → view B) :
  bind (lift (Return a)) k = k a.
Proof. done. Qed.

Lemma bind_ret {A B} (a : A) (k : A → view B) : bind (ret a) k = k a.
Proof. done. Qed.

Section quiz.
Context `{Runtime}.

Lemma quiz_query_store category st : (quiz_query category st).2 = st.
Proof.
  unfold quiz_query, bind, lift, ret, query_filter_by_category, query_all.
  repeat case_match; simplify_eq/=; done.
Qed.

Lemma get_quizzes_outcome rnd body st :
  get_quizzes rnd body st = (Raise (HTTPException 400), st)
  ∨ ∃ question, get_quizzes rnd body st = (Return (QuizJson question), st).
Proof.
  unfold get_quizzes, try_except, bind, lift, ret, abort, raise.
  destruct (dict_get body "previous_questions") as [past|]; [|by left].
  destruct (dict_get body "quiz_category") as [category|]; [|by left].
  pose proof (quiz_query_store category st) as Hst.
  destruct (quiz_query category st) as [[fetched|e] st']; simpl in Hst; subst st';
    [|by left].
  destruct (length fetched =? 0)%nat; [by left|].
  destruct (truthy past); [|by right; eexists].
  destruct (remove_seen past fetched fetched); [by right; eexists | by left].
Qed.

Lemma get_quizzes_empty_fetch_run rnd fields st :
  quiz_query (field "quiz_category" fields) st = (Return [], st) →
  get_quizzes rnd (JObj fields) st = (Raise (HTTPException 400), st).
Proof.
  intros Hquery.
  unfold get_quizzes, try_except, bind, lift, ret, abort, raise. simpl.
  by rewrite Hquery.
Qed.

(** C3 (what the code does): [next_quiz_question] when the fetched set
    (all questions, or those of the requested category) is empty: the
    [abort(404)] is raised inside the [try] and caught by its bare
    [except:], so the request is answered with 400 "bad request", not
    with 404. *)
Theorem quiz_empty_fetch_bad_request rnd fields st :
  quiz_query (field "quiz_category" fields) st = (Return [], st) →
  full_dispatch (get_quizzes rnd (JObj fields)) st = (bad_request, st).
Proof.
  intros Hquery. unfold full_dispatch.
  by rewrite get_quizzes_empty_fetch_run.
Qed.

(** X19: [get_quizzes] has two answers only, 200 with a question or null
    and 400 "bad request" (never 404, 422 or 500), and it never changes the
    store. *)
Lemma quiz_status rnd body st :
  full_dispatch (get_quizzes rnd body) st = (bad_request, st)
  ∨ ∃ question,
      full_dispatch (get_quizzes rnd body) st
      = (mkResponse 200 (QuizJson question), st).
Proof.
  unfold full_dispatch.
  destruct (get_quizzes_outcome rnd body st) as [-> | [question ->]];
    [by left | right; by eexists].
Qed.

Lemma remove_previous prev fetched :
  (if truthy (JArr (JNum <$> prev))
   then lift (remove_seen (JArr (JNum <$> prev)) fetched fetched)
   else ret fetched)
  = ret (unseen prev fetched).
Proof.
  destruct prev as [|p prev].
  - simpl. by rewrite unseen_nil.
  - change (truthy _) with true. cbv iota. unfold lift, ret.
    rewrite (remove_seen_all _ (λ n, bool_decide (n ∈ p :: prev))).
    + do 3 f_equal. unfold unseen. apply list_filter_iff. intros q.
      by rewrite bool_decide_eq_false.
    + intros n. unfold py_in. by rewrite existsb_int_eq.
Qed.

Lemma get_quizzes_fetch_run rnd prev category st fetched :
  quiz_query category st = (Return fetched, st) → fetched ≠ [] →
  get_quizzes rnd (quiz_body prev category) st
  = (Return (QuizJson (match unseen prev fetched with
                       | [] => None
                       | _ => random_choice rnd (unseen prev fetched)
                       end)), st).
Proof.
  intros Hquery Hfetched. unfold get_quizzes.
  change (dict_get (quiz_body prev category) "previous_questions")
    with (Return (JArr (JNum <$> prev))).
  change (dict_get (quiz_body prev category) "quiz_category")
    with (Return category).
  rewrite !bind_lift_Return. unfold try_except, bind at 1.
  rewrite Hquery.
  assert ((length fetched =? 0)%nat = false) as -> by (by destruct fetched).
  rewrite bind_ret, remove_previous, bind_ret. unfold ret.
  by destruct (unseen prev fetched).
Qed.

(** C4 (amended): [next_quiz_question] with a list of ids as
    [previous_questions], on a non-empty fetched set: the request succeeds;
    a returned question is one of the fetched ones and its id is not in
    [previous_questions]; and the question is null exactly when every
    fetched question's id is in [previous_questions]. *)
Theorem quiz_question_unseen rnd prev category st fetched :
  quiz_query category st = (Return fetched, st) → fetched ≠ [] →
  ∃ question,
    full_dispatch (get_quizzes rnd (quiz_body prev category)) st
    = (mkResponse 200 (QuizJson question), st)
    ∧ (∀ q, question = Some q → q ∈ fetched ∧ id q ∉ prev)
    ∧ (question = None ↔ ∀ q, q ∈ fetched → id q ∈ prev).
Proof.
  intros Hquery Hfetched. eexists. unfold full_dispatch.
  rewrite (get_quizzes_fetch_run _ _ _ _ fetched) by done.
  split; [done|]. split.
  - intros q Hq. destruct (unseen prev fetched) as [|r left] eqn:Hleft; [done|].
    rewrite <- Hleft in Hq. unfold random_choice in Hq.
    apply list_elem_of_lookup_2 in Hq. unfold unseen in Hq.
    apply list_elem_of_filter in Hq. tauto.
  - destruct (unseen prev fetched) as [|r left] eqn:Hleft.
    + split; [|done]. intros _ q Hq.
      destruct (decide (id q ∈ prev)) as [|Hout]; [done|].
      assert (q ∈ unseen prev fetched) as Hin
        by (by apply list_elem_of_filter).
      rewrite Hleft in Hin. by apply elem_of_nil in Hin.
    + split.
      * rewrite <- Hleft. unfold random_choice. intros Hnone.
        apply lookup_ge_None in Hnone.
        assert (length (unseen prev fetched) ≠ 0)%nat by (by rewrite Hleft).
        pose proof (Nat.mod_upper_bound rnd (length (unseen prev fetched))).
        lia.
      * intros Hall. assert (r ∈ unseen prev fetched) as Hr
          by (rewrite Hleft; left).
        apply list_elem_of_filter in Hr as [Hout Hr]. by apply Hall in Hr.
Qed.
End quiz.

(** ** The theorems at concrete requests *)

Lemma create_missing_field_witness :
  truthy (field "searchTerm" []) = false
  ∧ truthy (field "question" []) && truthy (field "answer" [])
    && truthy (field "category" []) && truthy (field "difficulty" [])
    = false
  ∧ full_dispatch (create_question (H:=strict_runtime) None (JObj [])) empty_store
    = (unprocessable, empty_store).
Proof.
  split; [reflexivity|]. split; [reflexivity|].
  apply (create_missing_field_unprocessable (H:=strict_runtime) None [] empty_store);
    reflexivity.
Defined.

Lemma search_mode_store_unchanged_witness :
  assoc "searchTerm" search_and_fields = Some (JStr "h2o")
  ∧ "h2o"%string ≠ EmptyString
  ∧ (full_dispatch
       (create_question (H:=strict_runtime) None (JObj search_and_fields))
       one_question_store).2 = one_question_store
  ∧ full_dispatch
      (create_question (H:=strict_runtime) None (JObj search_and_fields))
      one_question_store
    = full_dispatch
        (create_question (H:=strict_runtime) None
           (JObj [("searchTerm"%string, JStr "h2o")]))
        one_question_store.
Proof.
  split; [reflexivity|]. split; [discriminate|].
  apply (search_mode_store_unchanged (H:=strict_runtime) None search_and_fields
           "h2o" one_question_store); [reflexivity | discriminate].
Defined.

Lemma quiz_empty_fetch_witness :
  quiz_query (H:=strict_runtime) (field "quiz_category" []) empty_store
    = (Return [], empty_store)
  ∧ full_dispatch (get_quizzes (H:=strict_runtime) 0 (JObj [])) empty_store
    = (bad_request, empty_store).
Proof.
  split; [reflexivity|].
  apply (quiz_empty_fetch_bad_request (H:=strict_runtime) 0 [] empty_store).
  reflexivity.
Defined.

Lemma quiz_question_unseen_witness :
  quiz_query (H:=strict_runtime) JNull one_question_store
    = (Return [sample_question 1], one_question_store)
  ∧ [sample_question 1] ≠ []
  ∧ ∃ question,
      full_dispatch (get_quizzes (H:=strict_runtime) 0 (quiz_body [1] JNull))
                    one_question_store
      = (mkResponse 200 (QuizJson question), one_question_store)
      ∧ (∀ q, question = Some q → q ∈ [sample_question 1] ∧ id q ∉ [1])
      ∧ (question = None ↔ ∀ q, q ∈ [sample_question 1] → id q ∈ [1]).
Proof.
  split; [reflexivity|]. split; [discriminate|].
  apply (quiz_question_unseen (H:=strict_runtime) 0 [1] JNull one_question_store
           [sample_question 1]); [reflexivity | discriminate].
Defined.

(** C4 as stated fails on a store without questions: every fetched
    question's id is in [previous_questions], there being none, and the
    request is refused instead of answered with a null question. *)
Lemma quiz_nothing_fetched_not_null :
  ¬ ∀ rnd prev category st fetched,
      quiz_query (H:=strict_runtime) category st = (Return fetched, st) →
      (∀ q, q ∈ fetched → id q ∈ prev) →
      (full_dispatch (get_quizzes (H:=strict_runtime) rnd (quiz_body prev category))
                     st).1
      = mkResponse 200 (QuizJson None).
Proof.
  intros Hclaim.
  specialize (Hclaim 0%nat [] JNull empty_store [] eq_refl).
  discriminate Hclaim. intros q Hq. by apply elem_of_nil in Hq.
Qed.

(** * Further properties of the views *)

(** ** Pages of the listing *)

Lemma window_take_drop {A} lo hi (l : list A) :
  window lo hi l = take (Z.to_nat (hi - Z.max lo 0)) (drop (Z.to_nat lo) l).
Proof.
  unfold window. rewrite window_from_take_drop. do 2 f_equal. lia.
Qed.

Lemma current_page_negative page rows :
  page < 0 →
  current_page page rows
  = window (Z.of_nat (length rows) + (page - 1) * 10)
           (Z.of_nat (length rows) + (page - 1) * 10 + 10) rows.
Proof.
  intros Hneg. rewrite window_take_drop.
  unfold current_page, py_slice, adjust_index, QUESTIONS_PER_PAGE.
  destruct (Z.ltb_spec ((page - 1) * 10) 0); [|lia].
  destruct (Z.ltb_spec ((page - 1) * 10 + 10) 0); [|lia].
  f_equal; [|f_equal]; lia.
Qed.

Lemma take_drop_nil_iff {A} n k (l : list A) :
  take n (drop k l) = [] ↔ n = 0%nat ∨ (length l ≤ k)%nat.
Proof.
  split.
  - intros Hnil. apply (f_equal length) in Hnil.
    rewrite length_take, length_drop in Hnil. simpl in Hnil. lia.
  - intros [-> | Hk]; [done|]. by rewrite drop_ge, take_nil.
Qed.

(** X3: [get_questions] does not refuse a page below 0: its window is
    counted from the end of the id-ordered list. With n questions the
    request is answered with the items at positions [n+(page-1)*10,
    n+page*10) and the full count, and with 404 only when n is at most
    -10*page. *)
Theorem list_questions_negative_page page st :
  page < 0 →
  full_dispatch (get_questions (Some page)) st
  = (if decide (Z.of_nat (length (question_rows st)) ≤ - (10 * page))
     then not_found
     else mkResponse 200
            (QuestionPageJson
               (window (Z.of_nat (length (question_rows st)) + (page - 1) * 10)
                       (Z.of_nat (length (question_rows st)) + page * 10)
                       (order_by_id (question_rows st)))
               (length (question_rows st))
               (category_dict (category_rows st))), st).
Proof.
  intros Hneg. unfold full_dispatch. rewrite get_questions_run. simpl args_get_page.
  rewrite current_page_negative, !order_by_id_length by done.
  replace (Z.of_nat (length (question_rows st)) + (page - 1) * 10 + 10)
    with (Z.of_nat (length (question_rows st)) + page * 10) by lia.
  destruct (window _ _ _) as [|q qs] eqn:Hwin.
  - rewrite decide_True; [done|].
    rewrite window_take_drop in Hwin. apply take_drop_nil_iff in Hwin.
    rewrite order_by_id_length in Hwin. lia.
  - rewrite decide_False; [done|]. intros Hfew.
    rewrite window_take_drop in Hwin.
    assert (take (Z.to_nat
                    (Z.of_nat (length (question_rows st)) + page * 10
                     - Z.max (Z.of_nat (length (question_rows st)) + (page - 1) * 10) 0))
                 (drop (Z.to_nat (Z.of_nat (length (question_rows st)) + (page - 1) * 10))
                       (order_by_id (question_rows st))) = []) as Hnil.
    { apply take_drop_nil_iff. left. lia. }
    rewrite Hnil in Hwin. discriminate Hwin.
Qed.

Lemma list_questions_negative_page_witness :
  -1 < 0
  ∧ (full_dispatch (get_questions (Some (-1))) eleven_question_store).1
    = mkResponse 200
        (QuestionPageJson [sample_question 1] 11
           (category_dict (category_rows eleven_question_store))).
Proof.
  split; [lia|].
  rewrite (list_questions_negative_page (-1) eleven_question_store); [|lia].
  reflexivity.
Defined.

(** X2: [get_questions] for a page from 1 on: the request is answered with
    404 exactly when the store holds at most (page-1)*10 questions;
    otherwise with the (at most) ten id-ordered questions after the first
    (page-1)*10, the count of all questions and the category mapping. The
    store is left as it was. *)
Theorem list_questions_positive_page page st :
  1 ≤ page →
  full_dispatch (get_questions (Some page)) st
  = (if decide (Z.of_nat (length (question_rows st)) ≤ (page - 1) * 10)
     then not_found
     else mkResponse 200
            (QuestionPageJson
               (take 10 (drop (Z.to_nat ((page - 1) * 10))
                              (order_by_id (question_rows st))))
               (length (question_rows st))
               (category_dict (category_rows st))), st).
Proof.
  intros Hpos. unfold full_dispatch. rewrite get_questions_run. simpl args_get_page.
  rewrite current_page_window, window_nonneg, !order_by_id_length by lia.
  replace (Z.to_nat ((page - 1) * 10 + 10 - (page - 1) * 10)) with 10%nat by lia.
  destruct (take 10 _) as [|q qs] eqn:Htake.
  - rewrite decide_True; [done|].
    apply take_drop_nil_iff in Htake. rewrite order_by_id_length in Htake. lia.
  - rewrite decide_False; [done|]. intros Hfew.
    rewrite drop_ge in Htake; [done|]. rewrite order_by_id_length. lia.
Qed.

Lemma list_questions_positive_page_witness :
  1 ≤ 2
  ∧ (full_dispatch (get_questions (Some 2)) eleven_question_store).1
    = mkResponse 200
        (QuestionPageJson [sample_question 11] 11
           (category_dict (category_rows eleven_question_store))).
Proof.
  split; [lia|].
  rewrite (list_questions_positive_page 2 eleven_question_store); [|lia].
  reflexivity.
Defined.

(** X4: the windows of the pages 1, 2, ..., k, one after the other, are the
    first 10*k rows: going through the pages shows every row once, in
    order, none twice and none skipped. *)
Theorem pages_tile_the_list rows (k : nat) :
  concat ((λ p, current_page (Z.of_nat p) rows) <$> seq 1 k)
  = take (10 * k) rows.
Proof.
  induction k as [|k IH].
  - done.
  - rewrite seq_S, fmap_app, concat_app, IH. simpl. rewrite app_nil_r.
    rewrite current_page_window, window_nonneg by lia.
    replace (Z.to_nat ((Z.of_nat (S k) - 1) * 10 + 10 - (Z.of_nat (S k) - 1) * 10))
      with 10%nat by lia.
    replace (Z.to_nat ((Z.of_nat (S k) - 1) * 10)) with (10 * k)%nat by lia.
    rewrite take_take_drop. f_equal. lia.
Qed.

(** ** The category mapping *)

Lemma fill_dict_lookup (rows : list Category) (m : gmap Z string) i t :
  NoDup (category_id <$> rows) →
  foldl (λ categories c, insert (category_id c) (type c) categories) m rows
    !! i = Some t
  ↔ mkCategory i t ∈ rows ∨ ((i ∉ category_id <$> rows) ∧ m !! i = Some t).
Proof.
  revert m. induction rows as [|c rows IH]; intros m Hnodup; csimpl.
  - split; [intros Hm; right; split; [apply not_elem_of_nil | done]|].
    intros [Hin | [_ Hm]]; [by apply elem_of_nil in Hin | done].
  - apply NoDup_cons in Hnodup as [Hfresh Hnodup]. rewrite IH by done.
    rewrite elem_of_cons, not_elem_of_cons.
    destruct (decide (i = category_id c)) as [->|Hne].
    + rewrite lookup_insert_eq. split.
      * intros [Hin | [_ [= <-]]]; [|left; left; by destruct c].
        exfalso. apply Hfresh. apply list_elem_of_fmap. by exists (mkCategory (category_id c) t).
      * intros [[Heq | Hin] | [[Hne _] _]]; [| |done].
        -- right. split; [done|]. by rewrite <- Heq.
        -- exfalso. apply Hfresh. apply list_elem_of_fmap.
           by exists (mkCategory (category_id c) t).
    + rewrite lookup_insert_ne by done. split.
      * intros [Hin | [Hout Hm]]; [left; by right | right; done].
      * intros [[Heq | Hin] | [[_ Hout] Hm]]; [|by left | by right].
        subst c. done.
Qed.

Lemma category_dict_lookup rows i t :
  NoDup (category_id <$> rows) →
  category_dict rows !! i = Some t ↔ mkCategory i t ∈ rows.
Proof.
  intros Hnodup. unfold category_dict.
  assert (merge_sort category_le rows ≡ₚ rows) as Hperm
    by apply merge_sort_Permutation.
  rewrite fill_dict_lookup by (by rewrite Hperm).
  rewrite Hperm, lookup_empty.
  split; [intros [Hin | [_ Hnone]]; done | by left].
Qed.

(** X1: [get_categories] always succeeds, and with category ids that are
    keys the returned mapping holds exactly the categories of the store:
    it maps [i] to [t] if and only if a category row of id [i] and type
    [t] exists. *)
Theorem categories_map_each_id st :
  NoDup (category_id <$> category_rows st) →
  ∃ categories,
    full_dispatch get_categories st = (mkResponse 200 (CategoriesJson categories), st)
    ∧ ∀ i t, categories !! i = Some t ↔ mkCategory i t ∈ category_rows st.
Proof.
  intros Hnodup. exists (category_dict (category_rows st)). split; [done|].
  intros i t. by apply category_dict_lookup.
Qed.

Lemma categories_map_each_id_witness :
  NoDup (category_id <$> category_rows two_category_store)
  ∧ ∃ categories,
      full_dispatch get_categories two_category_store
      = (mkResponse 200 (CategoriesJson categories), two_category_store)
      ∧ ∀ i t, categories !! i = Some t
               ↔ mkCategory i t ∈ category_rows two_category_store.
Proof.
  assert (NoDup (category_id <$> category_rows two_category_store)) as Hnodup.
  { apply (bool_decide_unpack _). reflexivity. }
  split; [exact Hnodup|].
  exact (categories_map_each_id two_category_store Hnodup).
Defined.

(** ** Rows with pairwise different ids *)

Lemma same_id_same_row rows q1 q2 :
  NoDup (id <$> rows) → q1 ∈ rows → q2 ∈ rows → id q1 = id q2 → q1 = q2.
Proof.
  induction rows as [|r rows IH]; csimpl; intros Hnodup H1 H2 Hid.
  { by apply elem_of_nil in H1. }
  apply NoDup_cons in Hnodup as [Hfresh Hnodup].
  apply elem_of_cons in H1 as [->|H1]; apply elem_of_cons in H2 as [->|H2].
  - done.
  - exfalso. apply Hfresh. rewrite Hid. by apply list_elem_of_fmap_2.
  - exfalso. apply Hfresh. rewrite <- Hid. by apply list_elem_of_fmap_2.
  - by apply IH.
Qed.

Lemma filter_id_present rows q :
  NoDup (id <$> rows) → q ∈ rows → filter (λ r, id r = id q) rows = [q].
Proof.
  induction rows as [|r rows IH]; csimpl; intros Hnodup Hq.
  { by apply elem_of_nil in Hq. }
  apply NoDup_cons in Hnodup as [Hfresh Hnodup].
  apply elem_of_cons in Hq as [->|Hq].
  - rewrite filter_cons_True by done. f_equal.
    apply filter_id_absent. intros r' Hr' Hid. apply Hfresh.
    rewrite <- Hid. by apply list_elem_of_fmap_2.
  - rewrite filter_cons_False; [by apply IH|].
    intros Hid. apply Hfresh. rewrite Hid. by apply list_elem_of_fmap_2.
Qed.

Lemma StronglySorted_filter (P : Question → Prop) `{∀ q, Decision (P q)} l :
  StronglySorted id_le l → StronglySorted id_le (filter P l).
Proof.
  induction 1 as [|q l Hsorted IH Hall].
  - constructor.
  - destruct (decide (P q)).
    + rewrite filter_cons_True by done. constructor; [done|].
      apply Forall_forall. intros r Hr. apply list_elem_of_filter in Hr as [_ Hr].
      by eapply Forall_forall in Hall.
    + by rewrite filter_cons_False.
Qed.

Lemma order_by_id_StronglySorted rows : StronglySorted id_le (order_by_id rows).
Proof. apply Sorted_StronglySorted; [apply _ | apply order_by_id_Sorted]. Qed.

Lemma NoDup_ids_order_by_id rows :
  NoDup (id <$> rows) → NoDup (id <$> order_by_id rows).
Proof. by rewrite order_by_id_Permutation. Qed.

(** With ids that are keys it makes no difference whether the rows are
    selected before or after they are ordered. *)
Lemma order_by_id_filter (P : Question → Prop) `{∀ q, Decision (P q)} rows :
  NoDup (id <$> rows) →
  order_by_id (filter P rows) = filter P (order_by_id rows).
Proof.
  intros Hnodup. apply (StronglySorted_unique_strong id_le).
  - intros q1 q2 H1 H2 Hle Hge.
    rewrite order_by_id_elem_of, list_elem_of_filter in H1.
    rewrite list_elem_of_filter, order_by_id_elem_of in H2.
    destruct H1 as [_ H1], H2 as [_ H2].
    apply (same_id_same_row rows); [done..|]. unfold id_le in *. lia.
  - apply order_by_id_StronglySorted.
  - apply StronglySorted_filter, order_by_id_StronglySorted.
  - by rewrite !order_by_id_Permutation.
Qed.

(** A row whose id is above all others is ordered last. *)
Lemma order_by_id_snoc rows new :
  NoDup (id <$> rows) → (∀ q, q ∈ rows → id q < id new) →
  order_by_id (rows ++ [new]) = order_by_id rows ++ [new].
Proof.
  intros Hnodup Hbelow.
  assert (NoDup (id <$> rows ++ [new])) as Hnodup'.
  { rewrite fmap_app. apply NoDup_app. split_and!; [done| |apply NoDup_singleton].
    intros i Hi Hnew. apply list_elem_of_singleton in Hnew as ->.
    apply list_elem_of_fmap in Hi as (q & Hid & Hq). apply Hbelow in Hq. lia. }
  apply (StronglySorted_unique_strong id_le).
  - intros q1 q2 H1 H2 Hle Hge. rewrite order_by_id_elem_of in H1.
    assert (q2 ∈ rows ++ [new]) as H2'.
    { rewrite elem_of_app, order_by_id_elem_of in H2. by apply elem_of_app. }
    apply (same_id_same_row (rows ++ [new])); [done..|]. unfold id_le in *. lia.
  - apply order_by_id_StronglySorted.
  - apply StronglySorted_app_2.
    + intros q1 q2 H1 H2. apply list_elem_of_singleton in H2 as ->.
      rewrite order_by_id_elem_of in H1. apply Hbelow in H1. unfold id_le. lia.
    + apply order_by_id_StronglySorted.
    + repeat constructor.
  - by rewrite !order_by_id_Permutation.
Qed.

(** ** Deleting *)

(** X5: [delete_question] has two answers only: 422 with the store
    untouched, or, when a row of that id exists, 200 with the deleted id
    and a store from which the rows of that id are gone and no other. It
    never answers 404. *)
Theorem delete_question_unprocessable_or_deleted i st :
  full_dispatch (delete_question i) st = (unprocessable, st)
  ∨ (∃ q, q ∈ question_rows st ∧ id q = i)
    ∧ full_dispatch (delete_question i) st
      = (mkResponse 200 (DeletedJson i), store_without st i).
Proof.
  unfold full_dispatch, delete_question, try_except, bind, query_one_or_none.
  destruct (filter _ _) as [|q [|q' rest]] eqn:Hfilter; [by left| |by left].
  right. assert (q ∈ filter (λ r, id r = i) (question_rows st)) as Hq
    by (rewrite Hfilter; left).
  apply list_elem_of_filter in Hq as [Hid Hq]. split; [by exists q|].
  simpl. unfold row_delete, store_without. by rewrite Hid.
Qed.

Lemma delete_question_key_run i q st :
  NoDup (id <$> question_rows st) → q ∈ question_rows st → id q = i →
  delete_question i st = (Return (DeletedJson i), store_without st i).
Proof.
  intros Hnodup Hq <-.
  apply (delete_question_present_run (id q) q). by apply filter_id_present.
Qed.

Lemma NoDup_ids_filter (P : Question → Prop) `{∀ q, Decision (P q)} rows :
  NoDup (id <$> rows) → NoDup (id <$> filter P rows).
Proof.
  intros Hnodup. eapply sublist_NoDup; [done|].
  apply fmap_sublist, sublist_filter.
Qed.

(** X6: deleting an existing question and then listing any category gives
    the list that category had before, without the question of the deleted
    id and otherwise in the same order. *)
Theorem delete_then_list_by_category i q cid st :
  NoDup (id <$> question_rows st) → q ∈ question_rows st → id q = i →
  ∃ st1 qs,
    full_dispatch (delete_question i) st = (mkResponse 200 (DeletedJson i), st1)
    ∧ full_dispatch (get_by_category cid) st
      = (mkResponse 200 (QuestionsJson qs (length qs)), st)
    ∧ full_dispatch (get_by_category cid) st1
      = (mkResponse 200 (QuestionsJson (filter (λ r, id r ≠ i) qs)
                                       (length (filter (λ r, id r ≠ i) qs))), st1).
Proof.
  intros Hnodup Hq Hid.
  exists (store_without st i),
         (order_by_id (filter_by_category cid (question_rows st))).
  unfold full_dispatch. rewrite (delete_question_key_run i q) by done.
  split; [done|]. split; [done|].
  unfold get_by_category, store_without, filter_by_category. simpl.
  assert (order_by_id
            (filter (λ r, category r = cid)
                    (filter (λ r, id r ≠ i) (question_rows st)))
          = filter (λ r, id r ≠ i)
                   (order_by_id (filter (λ r, category r = cid) (question_rows st))))
    as ->; [|done].
  rewrite <- order_by_id_filter by (by apply NoDup_ids_filter).
  f_equal. rewrite !list_filter_filter. apply list_filter_iff. tauto.
Qed.

Lemma delete_then_list_by_category_witness :
  NoDup (id <$> question_rows two_category_store)
  ∧ mkQuestion 2 "Who painted the Mona Lisa?" "Leonardo" 2 3
    ∈ question_rows two_category_store
  ∧ ∃ st1 qs,
      full_dispatch (delete_question 2) two_category_store
      = (mkResponse 200 (DeletedJson 2), st1)
      ∧ full_dispatch (get_by_category 2) two_category_store
        = (mkResponse 200 (QuestionsJson qs (length qs)), two_category_store)
      ∧ full_dispatch (get_by_category 2) st1
        = (mkResponse 200 (QuestionsJson (filter (λ r, id r ≠ 2) qs)
                                         (length (filter (λ r, id r ≠ 2) qs))), st1).
Proof.
  assert (NoDup (id <$> question_rows two_category_store)) as Hnodup
    by (apply (bool_decide_unpack _); reflexivity).
  assert (mkQuestion 2 "Who painted the Mona Lisa?" "Leonardo" 2 3
          ∈ question_rows two_category_store) as Hin
    by (apply (bool_decide_unpack _); reflexivity).
  split; [exact Hnodup|]. split; [exact Hin|].
  exact (delete_then_list_by_category 2 _ 2 two_category_store Hnodup Hin eq_refl).
Defined.

(** ** Creating *)

Section create_more.
Context `{Runtime}.

Lemma create_question_accepted_run page_arg fields q a c d st :
  accepts fields q a c d →
  full_dispatch (create_question page_arg (JObj fields)) st
  = (mkResponse 200 SuccessJson, store_with st (new_row st q a c d)).
Proof.
  intros (Hterm & Hq & Ha & Hc & Hd & Bq & Ba & Bc & Bd).
  by apply create_all_fields_inserts.
Qed.

Lemma create_question_cases page_arg fields st :
  full_dispatch (create_question page_arg (JObj fields)) st = (unprocessable, st)
  ∨ (∃ qs total,
       full_dispatch (create_question page_arg (JObj fields)) st
       = (mkResponse 200 (QuestionsJson qs total), st))
  ∨ (∃ q a c d,
       accepts fields q a c d
       ∧ full_dispatch (create_question page_arg (JObj fields)) st
         = (mkResponse 200 SuccessJson, store_with st (new_row st q a c d))).
Proof.
  destruct (truthy (field "searchTerm" fields)) eqn:Hterm.
  { right. left. unfold full_dispatch. rewrite create_question_run, Hterm.
    by eexists _, _. }
  destruct (truthy (field "question" fields)) eqn:Hq;
    [|left; unfold full_dispatch; by rewrite create_question_run, Hterm, Hq].
  destruct (truthy (field "answer" fields)) eqn:Ha;
    [|left; unfold full_dispatch; by rewrite create_question_run, Hterm, Hq, Ha].
  destruct (truthy (field "category" fields)) eqn:Hc;
    [|left; unfold full_dispatch; by rewrite create_question_run, Hterm, Hq, Ha, Hc].
  destruct (truthy (field "difficulty" fields)) eqn:Hd;
    [|left; unfold full_dispatch;
      by rewrite create_question_run, Hterm, Hq, Ha, Hc, Hd].
  destruct (bind_text (field "question" fields)) as [q|] eqn:Bq;
    [|left; unfold full_dispatch;
      rewrite create_question_run, Hterm, Hq, Ha, Hc, Hd;
      unfold try_except, bind, row_insert; by rewrite Bq].
  destruct (bind_text (field "answer" fields)) as [a|] eqn:Ba;
    [|left; unfold full_dispatch;
      rewrite create_question_run, Hterm, Hq, Ha, Hc, Hd;
      unfold try_except, bind, row_insert; by rewrite Bq, Ba].
  destruct (bind_int (field "category" fields)) as [c|] eqn:Bc;
    [|left; unfold full_dispatch;
      rewrite create_question_run, Hterm, Hq, Ha, Hc, Hd;
      unfold try_except, bind, row_insert; by rewrite Bq, Ba, Bc].
  destruct (bind_int (field "difficulty" fields)) as [d|] eqn:Bd;
    [|left; unfold full_dispatch;
      rewrite create_question_run, Hterm, Hq, Ha, Hc, Hd;
      unfold try_except, bind, row_insert; by rewrite Bq, Ba, Bc, Bd].
  right. right. exists q, a, c, d.
  assert (accepts fields q a c d) as Hacc by (by unfold accepts).
  split; [done|]. by apply create_question_accepted_run.
Qed.


(** X9: creating a question and then deleting the id it was given leaves
    the question and category rows as they were before; only the sequence
    has moved on by one. *)
Theorem create_then_delete_restores_rows page_arg fields q a c d st :
  store_ok st → accepts fields q a c d →
  ∃ st1 st2,
    full_dispatch (create_question page_arg (JObj fields)) st
    = (mkResponse 200 SuccessJson, st1)
    ∧ full_dispatch (delete_question (question_seq st)) st1
      = (mkResponse 200 (DeletedJson (question_seq st)), st2)
    ∧ question_rows st2 = question_rows st
    ∧ category_rows st2 = category_rows st
    ∧ question_seq st2 = question_seq st + 1.
Proof.
  intros [Hnodup Hbelow] Hacc. eexists _, _.
  split; [by apply create_question_accepted_run|].
  unfold full_dispatch.
  rewrite (delete_question_present_run _ (new_row st q a c d)).
  - split; [done|]. simpl. split; [|done].
    rewrite filter_app, filter_cons_False, filter_nil, app_nil_r by (simpl; tauto).
    clear Hnodup. induction (question_rows st) as [|r rows IH]; [done|].
    rewrite filter_cons_True.
    + f_equal. apply IH. intros r' Hr'. apply Hbelow. by right.
    + pose proof (Hbelow r ltac:(left)). lia.
  - simpl. rewrite filter_app, filter_id_absent.
    + by rewrite filter_cons_True.
    + intros r Hr. apply Hbelow in Hr. lia.
Qed.

(** X8: after a question is created, the listing of its category is the
    former listing followed by the new question, and the listing of every
    other category is unchanged. *)
Theorem create_then_list_by_category page_arg fields q a c d cid st :
  store_ok st → accepts fields q a c d →
  ∃ st1 qs,
    full_dispatch (create_question page_arg (JObj fields)) st
    = (mkResponse 200 SuccessJson, st1)
    ∧ full_dispatch (get_by_category cid) st
      = (mkResponse 200 (QuestionsJson qs (length qs)), st)
    ∧ full_dispatch (get_by_category cid) st1
      = (let qs1 := qs ++ (if decide (c = cid) then [new_row st q a c d] else []) in
         mkResponse 200 (QuestionsJson qs1 (length qs1)), st1).
Proof.
  intros [Hnodup Hbelow] Hacc.
  exists (store_with st (new_row st q a c d)),
         (order_by_id (filter_by_category cid (question_rows st))).
  split; [by apply create_question_accepted_run|]. split; [done|].
  unfold full_dispatch, get_by_category, filter_by_category, store_with. simpl.
  rewrite filter_app. destruct (decide (c = cid)) as [->|Hne].
  - rewrite (filter_cons_True _ (new_row st q a cid d)) by done.
    rewrite filter_nil, order_by_id_snoc; [done|by apply NoDup_ids_filter|].
    intros r Hr. apply list_elem_of_filter in Hr as [_ Hr]. by apply Hbelow.
  - rewrite (filter_cons_False _ (new_row st q a c d)) by done.
    by rewrite filter_nil, !app_nil_r.
Qed.

(** X10: whatever the request, [create_question] and [delete_question]
    leave the ids of the questions pairwise different and below the
    sequence. *)
Theorem views_keep_store_ok page_arg body i st :
  store_ok st →
  store_ok (full_dispatch (create_question page_arg body) st).2
  ∧ store_ok (full_dispatch (delete_question i) st).2.
Proof.
  intros Hok. split.
  - destruct body as [| | | | |fields]; try done.
    destruct (create_question_cases page_arg fields st)
      as [-> | [(qs & total & ->) | (q & a & c & d & _ & ->)]]; [done..|].
    destruct Hok as [Hnodup Hbelow]. split; simpl.
    + rewrite fmap_app. apply NoDup_app. split_and!; [done| |apply NoDup_singleton].
      intros j Hj Hnew. apply list_elem_of_singleton in Hnew as ->.
      apply list_elem_of_fmap in Hj as (r & Hid & Hr). apply Hbelow in Hr.
      simpl in Hid. lia.
    + intros r Hr. apply elem_of_app in Hr as [Hr|Hr].
      * apply Hbelow in Hr. lia.
      * apply list_elem_of_singleton in Hr as ->. simpl. lia.
  - unfold full_dispatch, delete_question, try_except, bind, query_one_or_none.
    destruct (filter _ _) as [|q [|q' rest]]; [done| |done].
    destruct Hok as [Hnodup Hbelow]. split; simpl.
    + by apply NoDup_ids_filter.
    + intros r Hr. apply list_elem_of_filter in Hr as [_ Hr]. by apply Hbelow.
Qed.
End create_more.

(** ** Searching *)

Section search_more.
Context `{Runtime}.

End search_more.

(** ** The quiz, further *)

Lemma list_remove_sublist q l r : list_remove q l = Return r → r `sublist_of` l.
Proof.
  revert r. induction l as [|x l IH]; intros r; simpl; [done|].
  destruct (decide (x = q)).
  - intros [= <-]. by apply sublist_cons.
  - destruct (list_remove q l) as [r'|]; [|done].
    intros [= <-]. by apply sublist_skip, IH.
Qed.

Lemma remove_seen_sublist past snapshot questions r :
  remove_seen past snapshot questions = Return r → r `sublist_of` questions.
Proof.
  revert questions. induction snapshot as [|q rest IH]; intros questions; simpl.
  - by intros [= <-].
  - destruct (py_in (id q) past) as [[]|]; [| |done].
    + destruct (list_remove q questions) as [questions'|] eqn:Hremove; [|done].
      intros Hrest. etrans; [by apply IH|]. by eapply list_remove_sublist.
    + apply IH.
Qed.

(** X13: the loop that removes from [questions], while running over a
    copy of it, every question whose id is [in] the list
    [previous_questions] never raises, and leaves exactly the questions
    whose id equals no item of the list, in their order, also when rows
    occur more than once. *)
Theorem remove_seen_is_filter items questions :
  remove_seen (JArr items) questions questions
  = Return (filter (λ q, existsb (int_eq (id q)) items = false) questions).
Proof.
  apply (remove_seen_all (JArr items) (λ n, existsb (int_eq n) items)). done.
Qed.

Section quiz_more.
Context `{Runtime}.

Lemma get_quizzes_object_run rnd fields st :
  get_quizzes rnd (JObj fields) st =
  try_except
    (let! questions := quiz_query (field "quiz_category" fields) in
     do! (if (length questions =? 0)%nat then abort 404 else ret ()) in
     let! questions :=
       (if truthy (field "previous_questions" fields)
        then lift (remove_seen (field "previous_questions" fields)
                               questions questions)
        else ret questions) in
     ret (QuizJson (if (length questions =? 0)%nat then None
                    else random_choice rnd questions)))%view
    (abort 400) st.
Proof. reflexivity. Qed.

Lemma quiz_question_fetched rnd fields st fetched q st1 :
  quiz_query (field "quiz_category" fields) st = (Return fetched, st) →
  full_dispatch (get_quizzes rnd (JObj fields)) st
    = (mkResponse 200 (QuizJson (Some q)), st1) →
  q ∈ fetched.
Proof.
  intros Hquery. unfold full_dispatch.
  rewrite get_quizzes_object_run. unfold try_except, bind at 1. rewrite Hquery.
  destruct (length fetched =? 0)%nat; [done|]. rewrite bind_ret.
  destruct (truthy (field "previous_questions" fields)).
  - unfold bind, lift, ret.
    destruct (remove_seen _ fetched fetched) as [left|] eqn:Hleft; [|done].
    destruct (length left =? 0)%nat; [done|]. intros [= Hq _].
    apply list_elem_of_lookup_2 in Hq.
    eapply elem_of_sublist; [done|]. by eapply remove_seen_sublist.
  - rewrite bind_ret. unfold ret.
    destruct (length fetched =? 0)%nat; [done|]. intros [= Hq _].
    by apply list_elem_of_lookup_2 in Hq.
Qed.

Lemma quiz_query_by_id ids v c st :
  assoc "id" ids = Some v → truthy v = true → bind_int v = Some c →
  quiz_query (JObj ids) st
  = (Return (filter_by_category c (question_rows st)), st).
Proof.
  intros Hid Hv Hc.
  assert (subscript (JObj ids) "id" = Return v) as Hsub
    by (unfold subscript; by rewrite Hid).
  unfold quiz_query.
  assert (truthy (JObj ids) = true) as -> by (by destruct ids).
  rewrite Hsub. rewrite (bind_lift_Return v (λ i, ret (truthy i))).
  rewrite bind_ret, Hv, bind_lift_Return.
  unfold query_filter_by_category. by rewrite Hc.
Qed.

(** X14: when [quiz_category] has a truthy [id] that the store binds to
    category [c], a question returned by [get_quizzes] is a row of the
    store and of category [c], whatever [previous_questions] is. *)
Theorem quiz_question_of_requested_category rnd fields ids v c st q st1 :
  field "quiz_category" fields = JObj ids →
  assoc "id" ids = Some v → truthy v = true → bind_int v = Some c →
  full_dispatch (get_quizzes rnd (JObj fields)) st
    = (mkResponse 200 (QuizJson (Some q)), st1) →
  q ∈ question_rows st ∧ category q = c.
Proof.
  intros Hcategory Hid Hv Hc Hresp.
  apply (quiz_question_fetched _ _ _ (filter_by_category c (question_rows st)))
    in Hresp.
  - apply list_elem_of_filter in Hresp. tauto.
  - rewrite Hcategory. by apply (quiz_query_by_id ids v c).
Qed.

Lemma quiz_query_all category st :
  truthy category = false
  ∨ (∃ v, subscript category "id" = Return v ∧ truthy v = false) →
  quiz_query category st = (Return (question_rows st), st).
Proof.
  unfold quiz_query. intros [Hfalsy | (v & Hv & Hfalsy)].
  - by rewrite Hfalsy, bind_ret.
  - destruct (truthy category); [|by rewrite bind_ret].
    by rewrite Hv, bind_lift_Return, bind_ret, Hfalsy.
Qed.

Lemma get_quizzes_same_query rnd fields1 fields2 st :
  quiz_query (field "quiz_category" fields1) st
    = quiz_query (field "quiz_category" fields2) st →
  field "previous_questions" fields1 = field "previous_questions" fields2 →
  get_quizzes rnd (JObj fields1) st = get_quizzes rnd (JObj fields2) st.
Proof.
  intros Hquery Hprevious. rewrite !get_quizzes_object_run.
  unfold try_except, bind. by rewrite Hquery, Hprevious.
Qed.

(** X15: a [quiz_category] whose [id] is falsy (0, as a client asks for
    all categories) is answered as a request without [quiz_category]. *)
Theorem quiz_falsy_id_is_no_category rnd fields ids v st :
  field "quiz_category" fields = JObj ids →
  assoc "id" ids = Some v → truthy v = false →
  full_dispatch (get_quizzes rnd (JObj fields)) st
  = full_dispatch
      (get_quizzes rnd
         (JObj [("previous_questions"%string, field "previous_questions" fields)]))
      st.
Proof.
  intros Hcategory Hid Hv. unfold full_dispatch.
  rewrite (get_quizzes_same_query rnd fields
             [("previous_questions"%string, field "previous_questions" fields)]);
    [done| |done].
  rewrite Hcategory, (quiz_query_all JNull) by (by left).
  apply quiz_query_all. right. exists v. unfold subscript. by rewrite Hid.
Qed.

(** X16: a truthy [quiz_category] that has no [id] (a dict without the
    key, or a value that is no dict) is answered with 400. *)
Theorem quiz_category_without_id_bad_request rnd fields st :
  truthy (field "quiz_category" fields) = true →
  (∀ v, subscript (field "quiz_category" fields) "id" ≠ Return v) →
  full_dispatch (get_quizzes rnd (JObj fields)) st = (bad_request, st).
Proof.
  intros Htruthy Hnone. unfold full_dispatch.
  rewrite get_quizzes_object_run. unfold try_except, bind at 1.
  unfold quiz_query. rewrite Htruthy.
  destruct (subscript (field "quiz_category" fields) "id") as [v|e] eqn:Hsub.
  - by destruct (Hnone v).
  - done.
Qed.

(** X17: a truthy [previous_questions] that is neither a list nor a dict
    (a number, a string, [true]) is answered with 400, whatever the store
    holds. *)
Theorem quiz_previous_not_a_container_bad_request rnd fields st :
  truthy (field "previous_questions" fields) = true →
  is_container (field "previous_questions" fields) = false →
  full_dispatch (get_quizzes rnd (JObj fields)) st = (bad_request, st).
Proof.
  intros Htruthy Hkind. unfold full_dispatch.
  rewrite get_quizzes_object_run. unfold try_except, bind at 1.
  pose proof (quiz_query_store (field "quiz_category" fields) st) as Hst.
  destruct (quiz_query _ st) as [[fetched|e] st']; simpl in Hst; subst st';
    [|done].
  destruct fetched as [|q fetched]; [done|].
  simpl Nat.eqb. cbv iota. rewrite bind_ret, Htruthy.
  unfold bind, lift. simpl remove_seen.
  by destruct (field "previous_questions" fields).
Qed.

(** X18: every fetched question whose id is not in [previous_questions]
    is returned for some draw of [random.choice]: no candidate is out of
    reach. *)
Theorem quiz_every_unseen_question_can_be_drawn prev category st fetched q :
  quiz_query category st = (Return fetched, st) →
  q ∈ fetched → id q ∉ prev →
  ∃ rnd,
    full_dispatch (get_quizzes rnd (quiz_body prev category)) st
    = (mkResponse 200 (QuizJson (Some q)), st).
Proof.
  intros Hquery Hq Hunseen.
  assert (q ∈ unseen prev fetched) as Hin by (by apply list_elem_of_filter).
  apply list_elem_of_lookup_1 in Hin as [k Hk]. exists k.
  unfold full_dispatch.
  rewrite (get_quizzes_fetch_run _ _ _ _ fetched); [|done|by intros ->; apply elem_of_nil in Hq].
  pose proof (lookup_lt_Some _ _ _ Hk) as Hlt.
  destruct (unseen prev fetched) as [|r rest] eqn:Hleft; [simpl in Hlt; lia|].
  unfold random_choice. rewrite Nat.mod_small by done. by rewrite Hk.
Qed.
End quiz_more.


(** ** The further properties at concrete requests *)

Lemma two_category_store_ok : store_ok two_category_store.
Proof.
  split.
  - apply (bool_decide_unpack _). reflexivity.
  - apply Forall_forall, (bool_decide_unpack _). reflexivity.
Defined.

Lemma create_body_accepted q a c d :
  q ≠ EmptyString → a ≠ EmptyString → c ≠ 0 → d ≠ 0 →
  accepts (H:=strict_runtime) (create_body q a c d) q a c d.
Proof.
  intros Hq Ha Hc Hd. unfold accepts, create_body, field. simpl.
  destruct q; [done|]. destruct a; [done|].
  destruct (Z.eqb_spec c 0); [done|]. destruct (Z.eqb_spec d 0); [done|].
  by repeat split.
Defined.

Lemma create_then_delete_witness :
  store_ok two_category_store
  ∧ accepts (H:=strict_runtime) (create_body "What is CO2?" "A gas" 1 2)
            "What is CO2?" "A gas" 1 2
  ∧ ∃ st1 st2,
      full_dispatch
        (create_question (H:=strict_runtime) None
           (JObj (create_body "What is CO2?" "A gas" 1 2)))
        two_category_store
      = (mkResponse 200 SuccessJson, st1)
      ∧ full_dispatch (delete_question (question_seq two_category_store)) st1
        = (mkResponse 200 (DeletedJson (question_seq two_category_store)), st2)
      ∧ question_rows st2 = question_rows two_category_store
      ∧ category_rows st2 = category_rows two_category_store
      ∧ question_seq st2 = question_seq two_category_store + 1.
Proof.
  assert (accepts (H:=strict_runtime) (create_body "What is CO2?" "A gas" 1 2)
                  "What is CO2?" "A gas" 1 2) as Hacc
    by (by apply create_body_accepted).
  split; [exact two_category_store_ok|]. split; [exact Hacc|].
  exact (create_then_delete_restores_rows (H:=strict_runtime) None _ _ _ _ _
           two_category_store two_category_store_ok Hacc).
Defined.

Lemma create_then_list_witness :
  store_ok two_category_store
  ∧ accepts (H:=strict_runtime) (create_body "What is CO2?" "A gas" 1 2)
            "What is CO2?" "A gas" 1 2
  ∧ ∃ st1 qs,
      full_dispatch
        (create_question (H:=strict_runtime) None
           (JObj (create_body "What is CO2?" "A gas" 1 2)))
        two_category_store
      = (mkResponse 200 SuccessJson, st1)
      ∧ full_dispatch (get_by_category 1) two_category_store
        = (mkResponse 200 (QuestionsJson qs (length qs)), two_category_store)
      ∧ full_dispatch (get_by_category 1) st1
        = (let qs1 :=
             qs ++ (if decide (1 = 1)
                    then [new_row two_category_store "What is CO2?" "A gas" 1 2]
                    else []) in
           mkResponse 200 (QuestionsJson qs1 (length qs1)), st1).
Proof.
  assert (accepts (H:=strict_runtime) (create_body "What is CO2?" "A gas" 1 2)
                  "What is CO2?" "A gas" 1 2) as Hacc
    by (by apply create_body_accepted).
  split; [exact two_category_store_ok|]. split; [exact Hacc|].
  exact (create_then_list_by_category (H:=strict_runtime) None _ _ _ _ _ 1
           two_category_store two_category_store_ok Hacc).
Defined.

Lemma views_keep_store_ok_witness :
  store_ok two_category_store
  ∧ store_ok
      (full_dispatch
         (create_question (H:=strict_runtime) None
            (JObj (create_body "What is CO2?" "A gas" 1 2)))
         two_category_store).2
  ∧ store_ok (full_dispatch (delete_question 2) two_category_store).2.
Proof.
  split; [exact two_category_store_ok|].
  exact (views_keep_store_ok (H:=strict_runtime) None
           (JObj (create_body "What is CO2?" "A gas" 1 2)) 2
           two_category_store two_category_store_ok).
Defined.



Lemma quiz_question_of_requested_category_witness :
  field "quiz_category" art_quiz_fields = JObj [("id"%string, JNum 2)]
  ∧ assoc "id" [("id"%string, JNum 2)] = Some (JNum 2)
  ∧ truthy (JNum 2) = true
  ∧ bind_int (Runtime:=strict_runtime) (JNum 2) = Some 2
  ∧ full_dispatch (get_quizzes (H:=strict_runtime) 0 (JObj art_quiz_fields))
                  two_category_store
    = (mkResponse 200
         (QuizJson (Some (mkQuestion 3 "What is the title of the anthem?" "None" 2 2))),
       two_category_store)
  ∧ mkQuestion 3 "What is the title of the anthem?" "None" 2 2
    ∈ question_rows two_category_store
  ∧ category (mkQuestion 3 "What is the title of the anthem?" "None" 2 2) = 2.
Proof.
  split; [reflexivity|]. split; [reflexivity|]. split; [reflexivity|].
  split; [reflexivity|]. split; [reflexivity|].
  exact (quiz_question_of_requested_category (H:=strict_runtime) 0 art_quiz_fields
           [("id"%string, JNum 2)] (JNum 2) 2 two_category_store _ _
           eq_refl eq_refl eq_refl eq_refl eq_refl).
Defined.

Lemma quiz_falsy_id_witness :
  field "quiz_category" all_quiz_fields
    = JObj [("type"%string, JStr "click"); ("id"%string, JNum 0)]
  ∧ assoc "id" [("type"%string, JStr "click"); ("id"%string, JNum 0)]
    = Some (JNum 0)
  ∧ truthy (JNum 0) = false
  ∧ full_dispatch (get_quizzes (H:=strict_runtime) 0 (JObj all_quiz_fields))
                  two_category_store
    = full_dispatch
        (get_quizzes (H:=strict_runtime) 0
           (JObj [("previous_questions"%string,
                   field "previous_questions" all_quiz_fields)]))
        two_category_store.
Proof.
  split; [reflexivity|]. split; [reflexivity|]. split; [reflexivity|].
  exact (quiz_falsy_id_is_no_category (H:=strict_runtime) 0 all_quiz_fields
           [("type"%string, JStr "click"); ("id"%string, JNum 0)] (JNum 0)
           two_category_store eq_refl eq_refl eq_refl).
Defined.

Lemma quiz_category_without_id_witness :
  truthy (field "quiz_category" typed_quiz_fields) = true
  ∧ (∀ v, subscript (field "quiz_category" typed_quiz_fields) "id" ≠ Return v)
  ∧ full_dispatch (get_quizzes (H:=strict_runtime) 0 (JObj typed_quiz_fields))
                  two_category_store
    = (bad_request, two_category_store).
Proof.
  assert (∀ v, subscript (field "quiz_category" typed_quiz_fields) "id" ≠ Return v)
    as Hnone by (intros v; discriminate).
  split; [reflexivity|]. split; [exact Hnone|].
  exact (quiz_category_without_id_bad_request (H:=strict_runtime) 0
           typed_quiz_fields two_category_store eq_refl Hnone).
Defined.

Lemma quiz_previous_not_a_container_witness :
  truthy (field "previous_questions" [("previous_questions"%string, JNum 3)]) = true
  ∧ is_container (field "previous_questions" [("previous_questions"%string, JNum 3)])
    = false
  ∧ full_dispatch
      (get_quizzes (H:=strict_runtime) 0
         (JObj [("previous_questions"%string, JNum 3)]))
      two_category_store
    = (bad_request, two_category_store).
Proof.
  split; [reflexivity|]. split; [reflexivity|].
  exact (quiz_previous_not_a_container_bad_request (H:=strict_runtime) 0
           [("previous_questions"%string, JNum 3)] two_category_store
           eq_refl eq_refl).
Defined.

Lemma quiz_every_unseen_witness :
  quiz_query (H:=strict_runtime) JNull two_category_store
    = (Return (question_rows two_category_store), two_category_store)
  ∧ mkQuestion 3 "What is the title of the anthem?" "None" 2 2
    ∈ question_rows two_category_store
  ∧ (3 ∉ [1])
  ∧ ∃ rnd,
      full_dispatch (get_quizzes (H:=strict_runtime) rnd (quiz_body [1] JNull))
                    two_category_store
      = (mkResponse 200
           (QuizJson (Some (mkQuestion 3 "What is the title of the anthem?" "None" 2 2))),
         two_category_store).
Proof.
  assert (mkQuestion 3 "What is the title of the anthem?" "None" 2 2
          ∈ question_rows two_category_store) as Hin
    by (apply (bool_decide_unpack _); reflexivity).
  assert (3 ∉ [1]) as Hout by (apply (bool_decide_unpack _); reflexivity).
  split; [reflexivity|]. split; [exact Hin|]. split; [exact Hout|].
  exact (quiz_every_unseen_question_can_be_drawn (H:=strict_runtime) [1] JNull
           two_category_store _ _ eq_refl Hin Hout).
Defined.
